(** * Shape recognition of the easel brush (klecks): a shallow embedding

    The verified program is [src/app/script/bb/math/shape-recognition.ts]
    (class [ShapeRecognition]) together with its earlier revision, which the
    repository also carries.  JavaScript numbers are IEEE 754 binary64
    values, so coordinates are modelled by Rocq's primitive floats, whose
    operations are exactly the binary64 ones. *)

From Stdlib Require Import String.
From Stdlib Require Import List ZArith Lia Bool Sorted.
From Stdlib Require Import Floats.
From Stdlib Require Uint63.
Import ListNotations.

Set Implicit Arguments.
#[local] Set Warnings "-inexact-float".

(** ** JavaScript numbers *)

Module Js.

(** [x !== x] holds for NaN only. *)
Definition isNaN (x : float) : bool := negb (x =? x)%float.

(** [-0] is told apart from [+0] by its class. *)
Definition isNegZero (x : float) : bool :=
  match classify x with
  | NZero => true
  | _ => false
  end.

Definition isPosZero (x : float) : bool :=
  match classify x with
  | PZero => true
  | _ => false
  end.

(** Truthiness of a number: [0], [-0] and NaN are falsy. *)
Definition truthy (x : float) : bool := negb ((x =? 0)%float || isNaN x).

(** [a || b] on numbers. *)
Definition or_else (a b : float) : float := if truthy a then a else b.

(** [Math.min(...xs)]: [+Infinity] without arguments, NaN as soon as one
    argument is NaN, and [-0] below [+0]. *)
Definition min_step (lowest n : float) : float :=
  if isNaN lowest || isNaN n then nan
  else if isNegZero n && isPosZero lowest then n
  else if (n <? lowest)%float then n
  else lowest.

Definition Math_min (xs : list float) : float :=
  fold_left min_step xs infinity.

(** [Math.max(...xs)]: [-Infinity] without arguments, NaN as soon as one
    argument is NaN, and [+0] above [-0]. *)
Definition max_step (highest n : float) : float :=
  if isNaN highest || isNaN n then nan
  else if isPosZero n && isNegZero highest then n
  else if (highest <? n)%float then n
  else highest.

Definition Math_max (xs : list float) : float :=
  fold_left max_step xs neg_infinity.

(** [x ** 2]. *)
Definition sq (x : float) : float := (x * x)%float.

(** The length of an array as a number; array lengths are below [2^32]. *)
Definition ofNat (n : nat) : float := of_uint63 (Uint63.of_Z (Z.of_nat n)).

(** [xs.sort((a, b) => a - b)]: the comparator puts [a] after [b] when
    [a - b > 0]; a NaN or zero difference leaves the two in their order.
    The sort is stable, here by insertion. *)
Fixpoint insert (cmp : float -> float -> float) (a : float) (l : list float)
  : list float :=
  match l with
  | [] => [a]
  | b :: l' =>
      if (0 <? cmp a b)%float then b :: insert cmp a l' else a :: b :: l'
  end.

Definition sort (cmp : float -> float -> float) (xs : list float)
  : list float :=
  fold_right (insert cmp) [] xs.

(** [xs[i]], which is [undefined] (here [None]) out of range. *)
Definition at_ {A : Type} (xs : list A) (i : Z) : option A :=
  if (i <? 0)%Z then None else nth_error xs (Z.to_nat i).

End Js.

(** ** Exceptions *)

Inductive Error : Type :=
| TypeError          (* a property read on [undefined] *)
| UnknownShapeType.  (* [new Error('Unknown shape type')] *)

Inductive Result (A : Type) : Type :=
| Ok (a : A)
| Throw (e : Error).

Arguments Ok {A} a.
Arguments Throw {A} e.

Definition bind {A B : Type} (r : Result A) (k : A -> Result B) : Result B :=
  match r with
  | Ok a => k a
  | Throw e => Throw e
  end.

Notation "x <- r ;; k" := (bind r (fun x => k))
  (at level 61, r at next level, right associativity).

(** Reading a property of [xs[i]] throws when the element is [undefined]. *)
Definition elem {A : Type} (xs : list A) (i : Z) : Result A :=
  match Js.at_ xs i with
  | Some a => Ok a
  | None => Throw TypeError
  end.

(** ** Data model *)

Inductive ShapeType : Type := circle | rectangle | line.

Record Point : Type := { x : float; y : float; time : Z }.

(** A point of the console entry point carries no time. *)
Record TVector2D : Type := { vx : float; vy : float }.

(** [{x1, y1, x2, y2}]; a field is [None] when JavaScript leaves it
    [undefined]. *)
Record Params : Type :=
  { x1 : option float; y1 : option float;
    x2 : option float; y2 : option float }.

Record RecognizedShape : Type :=
  { type : ShapeType; bounds : Params }.

(** ** Geometry heuristics of the class *)

Definition len (points : list Point) : Z := Z.of_nat (length points).

(** Bounding box as every detector computes it. *)
Definition minX (points : list Point) : float := Js.Math_min (map x points).
Definition maxX (points : list Point) : float := Js.Math_max (map x points).
Definition minY (points : list Point) : float := Js.Math_min (map y points).
Definition maxY (points : list Point) : float := Js.Math_max (map y points).
Definition width (points : list Point) : float :=
  (maxX points - minX points)%float.
Definition height (points : list Point) : float :=
  (maxY points - minY points)%float.

(** [height === 0 ? Infinity : width / height] *)
Definition aspect (points : list Point) : float :=
  if (height points =? 0)%float then infinity
  else (width points / height points)%float.

(** The two [for (const p of points)] loops over the coordinates. *)
Definition sumX (points : list Point) : float :=
  fold_left (fun acc p => (acc + x p)%float) points 0%float.
Definition sumY (points : list Point) : float :=
  fold_left (fun acc p => (acc + y p)%float) points 0%float.
Definition centerX (points : list Point) : float :=
  (sumX points / Js.ofNat (length points))%float.
Definition centerY (points : list Point) : float :=
  (sumY points / Js.ofNat (length points))%float.

Definition distTo (cx cy : float) (p : Point) : float :=
  PrimFloat.sqrt (Js.sq (x p - cx) + Js.sq (y p - cy))%float.

Definition sumDist (points : list Point) : float :=
  fold_left
    (fun acc p => (acc + distTo (centerX points) (centerY points) p)%float)
    points 0%float.

Definition avgRadius (points : list Point) : float :=
  (sumDist points / Js.ofNat (length points))%float.

Definition radiusVariance (points : list Point) : float :=
  (fold_left
     (fun acc p =>
        (acc + PrimFloat.abs (distTo (centerX points) (centerY points) p
                    - avgRadius points))%float)
     points 0%float
   / Js.ofNat (length points))%float.

(** *** isCircle *)
Definition isCircle (points : list Point) : bool :=
  if (len points <? 20)%Z then false
  else if (width points <? 10)%float || (height points <? 10)%float then false
  else
    let aspect := (width points / height points)%float in
    if (aspect <? 0.7)%float || (1.3 <? aspect)%float then false
    else (radiusVariance points <? avgRadius points * 0.5)%float.

(** *** isRectangle *)

Record Corners : Type :=
  { topLeft : bool; topRight : bool; bottomLeft : bool; bottomRight : bool }.

Definition cornerThreshold (points : list Point) : float :=
  Js.Math_max [8%float;
               (Js.Math_min [width points; height points] * 0.25)%float].

(** One turn of the [for (const p of points)] loop that marks the corners. *)
Definition markCorners (points : list Point) (c : Corners) (p : Point)
  : Corners :=
  let th := cornerThreshold points in
  let dxLeft := PrimFloat.abs (x p - minX points) in
  let dxRight := PrimFloat.abs (x p - maxX points) in
  let dyTop := PrimFloat.abs (y p - minY points) in
  let dyBottom := PrimFloat.abs (y p - maxY points) in
  {| topLeft :=
       if (dxLeft <? th)%float && (dyTop <? th)%float then true
       else topLeft c;
     topRight :=
       if (dxRight <? th)%float && (dyTop <? th)%float then true
       else topRight c;
     bottomLeft :=
       if (dxLeft <? th)%float && (dyBottom <? th)%float then true
       else bottomLeft c;
     bottomRight :=
       if (dxRight <? th)%float && (dyBottom <? th)%float then true
       else bottomRight c |}.

Definition cornerCount (points : list Point) : nat :=
  let c :=
    fold_left (markCorners points) points
      {| topLeft := false; topRight := false;
         bottomLeft := false; bottomRight := false |} in
  length
    (filter (fun v : bool => v)
       [topLeft c; topRight c; bottomLeft c; bottomRight c]).

Definition isRectangle (points : list Point) : bool :=
  if (len points <? 12)%Z then false
  else if (width points <? 15)%float || (height points <? 15)%float then false
  else
    let aspect := (width points / height points)%float in
    if (5 <? aspect)%float || (aspect <? 0.2)%float then false
    else (3 <=? cornerCount points)%nat.

(** *** isLine *)

(** Chord from [start] to [end]: [dx], [dy] and its length. *)
Definition chordLength (dx dy : float) : float :=
  PrimFloat.sqrt (dx * dx + dy * dy)%float.

(** [|dy * (p.x - start.x) - dx * (p.y - start.y)| / (length || 1)] *)
Definition deviation (start : Point) (dx dy length : float) (p : Point)
  : float :=
  (PrimFloat.abs (dy * (x p - x start) - dx * (y p - y start))
   / Js.or_else length 1)%float.

(** [for (let i = 1; i < points.length - 1; i++)]: the indices visited. *)
Definition interior (points : list Point) : list nat :=
  seq 1 (length points - 2).

(** The loop summing the deviations of [points[i]]; every index visited is
    inside the array. *)
Definition totalDeviation (points : list Point) (start : Point)
  (dx dy length : float) : float :=
  fold_left
    (fun total i =>
       (total + deviation start dx dy length (nth i points start))%float)
    (interior points) 0%float.

(** [totalDeviation / Math.max(1, points.length - 2)] *)
Definition avgDeviation (points : list Point) (start : Point)
  (dx dy length : float) : float :=
  (totalDeviation points start dx dy length
   / Js.Math_max [1%float; (Js.ofNat (List.length points) - 2)%float])%float.

(** The instance method: no guard on the number of points nor on the chord. *)
Definition isLine (points : list Point) : Result bool :=
  start <- elem points 0 ;;
  end_ <- elem points (len points - 1) ;;
  let dx := (x end_ - x start)%float in
  let dy := (y end_ - y start)%float in
  let length := chordLength dx dy in
  Ok (avgDeviation points start dx dy length <? 7)%float.

(** ** The built-in classifier *)

Definition elongated (aspect : float) : bool :=
  (5 <? aspect)%float || (aspect <? 0.2)%float.

Definition nearSquare (aspect : float) : bool :=
  (0.7 <? aspect)%float && (aspect <? 1.3)%float.

Definition detectShape (points : list Point) : Result (option ShapeType) :=
  if (len points <? 10)%Z then Ok None
  else
    let aspect := aspect points in
    if elongated aspect then
      l <- isLine points ;;
      if l : bool then Ok (Some line) else Ok None
    else if nearSquare aspect && isCircle points then Ok (Some circle)
    else if isRectangle points then Ok (Some rectangle)
    else
      l <- isLine points ;;
      if l : bool then Ok (Some line) else Ok None.

(** ** Parameter extraction *)

(** The tag of a shape as the string JavaScript carries at run time. *)
Definition typeName (s : ShapeType) : string :=
  match s with
  | circle => "circle"
  | rectangle => "rectangle"
  | line => "line"
  end.

(** [getShapeParams(type, points)].  The TypeScript signature restricts
    [type] to the three tags; at run time it is a string, and the last
    statement throws for any other one. *)
Definition getShapeParams (type : string) (points : list Point)
  : Result Params :=
  if String.eqb type "line" then
    first <- elem points 0 ;;
    last <- elem points (len points - 1) ;;
    Ok {| x1 := Some (x first); y1 := Some (y first);
          x2 := Some (x last); y2 := Some (y last) |}
  else if String.eqb type "rectangle" then
    let xs := Js.sort (fun a b => (a - b)%float) (map x points) in
    let ys := Js.sort (fun a b => (a - b)%float) (map y points) in
    Ok {| x1 := Js.at_ xs 0; y1 := Js.at_ ys 0;
          x2 := Js.at_ xs (Z.of_nat (length xs) - 1);
          y2 := Js.at_ ys (Z.of_nat (length ys) - 1) |}
  else if String.eqb type "circle" then
    let '(sumX, sumY) :=
      fold_left
        (fun '(sumX, sumY) p => ((sumX + x p)%float, (sumY + y p)%float))
        points (0%float, 0%float) in
    let centerX := (sumX / Js.ofNat (length points))%float in
    let centerY := (sumY / Js.ofNat (length points))%float in
    let sumDist :=
      fold_left
        (fun sumDist p =>
           (sumDist
            + PrimFloat.sqrt
                (Js.sq (x p - centerX) + Js.sq (y p - centerY)))%float)
        points 0%float in
    let radius := (sumDist / Js.ofNat (length points))%float in
    Ok {| x1 := Some (centerX - radius)%float;
          y1 := Some (centerY - radius)%float;
          x2 := Some (centerX + radius)%float;
          y2 := Some (centerY + radius)%float |}
  else Throw UnknownShapeType.

(** ** The console entry point and its static helpers *)

Definition isCircleStatic (points : list Point) : bool :=
  if (len points <? 20)%Z then false
  else if (width points <? 10)%float || (height points <? 10)%float then false
  else
    let aspect := (width points / height points)%float in
    if (aspect <? 0.7)%float || (1.3 <? aspect)%float then false
    else (radiusVariance points <? avgRadius points * 0.5)%float.

Definition isRectangleStatic (points : list Point) : bool :=
  if (len points <? 12)%Z then false
  else if (width points <? 15)%float || (height points <? 15)%float then false
  else
    let aspect := (width points / height points)%float in
    if (5 <? aspect)%float || (aspect <? 0.2)%float then false
    else (3 <=? cornerCount points)%nat.

(** The static line test keeps the two guards the instance method lacks. *)
Definition isLineStatic (points : list Point) : Result bool :=
  if (len points <? 5)%Z then Ok false
  else
    start <- elem points 0 ;;
    end_ <- elem points (len points - 1) ;;
    let dx := (x end_ - x start)%float in
    let dy := (y end_ - y start)%float in
    let length := chordLength dx dy in
    if (length <? 15)%float then Ok false
    else Ok (avgDeviation points start dx dy length <? 7)%float.

(** [points.map(p => ({ ...p, time: Date.now() }))]; [now i] is what the
    clock reads at the call for the point of index [i]. *)
Fixpoint stamp (now : nat -> Z) (i : nat) (points : list TVector2D)
  : list Point :=
  match points with
  | [] => []
  | p :: rest =>
      {| x := vx p; y := vy p; time := now i |} :: stamp now (S i) rest
  end.

(** What the run-time import of [@tldraw/tldraw] (else [@tldraw/core])
    offers: [None] when neither module loads or the module has no
    [detectShape] function. *)
Definition Detector : Type := list Point -> Result (option ShapeType).

Definition recognizeShapeFromPoints (candidate : option Detector)
  (now : nat -> Z) (points : list TVector2D) : Result (option ShapeType) :=
  if (Z.of_nat (length points) <? 10)%Z then Ok None
  else
    let ptsWithTime := stamp now 0 points in
    let imported :=
      match candidate with
      | Some detect =>
          match detect ptsWithTime with
          | Ok r => Some r
          | Throw _ => None   (* caught: fall back *)
          end
      | None => None
      end in
    match imported with
    | Some r => Ok r
    | None =>
        let aspect := aspect ptsWithTime in
        if elongated aspect then
          l <- isLineStatic ptsWithTime ;;
          if l : bool then Ok (Some line) else Ok None
        else if nearSquare aspect && isCircleStatic ptsWithTime
        then Ok (Some circle)
        else if isRectangleStatic ptsWithTime then Ok (Some rectangle)
        else
          l <- isLineStatic ptsWithTime ;;
          if l : bool then Ok (Some line) else Ok None
    end.

(** ** Draw events *)

(** Modelled from the spec: [BB.copyObj] belongs to [bb/bb], which is not
    among the sources; it returns a deep copy of its argument, which for an
    immutable value is the value itself. *)
Definition copyObj {A : Type} (a : A) : A := a.

Record TDrawingProps : Type :=
  { pressure : float; isCoalesced : bool;
    shiftIsPressed : bool; scale : float }.

(** Modelled from the spec: [TDrawEvent] is declared in [klecks/kl-types],
    which is not among the sources.  The fields of the down, move and up
    events are those the easel brush fills in; an event of type line is
    only passed through and its content is kept as it comes. *)
Inductive TDrawEvent : Type :=
| down (ex ey : float) (props : TDrawingProps)
| move (ex ey : float) (props : TDrawingProps)
| up (upIsCoalesced upShiftIsPressed : bool) (upScale : float)
| drawLine (x0 y0 : option float) (lx1 ly1 : float)
    (pressure0 : option float) (pressure1 : float).

(** ** The recognizer and its state *)

(** The adapter around an external recognizer; both members are optional. *)
Record ExternalRecognizer : Type :=
  { recognize : option (list Point -> Result (option ShapeType));
    getParams : option (ShapeType -> list Point -> Result Params) }.

(** The fields of the class.  [holdTimeout] is [Some due] while a timer is
    pending and [None] once it was cleared or has fired.
    [onShapeRecognized] tells whether a callback is registered, and
    [notified] lists the shapes it was called with, oldest first. *)
Record ShapeRecognition : Type :=
  { points : list Point;
    holdTimeout : option Z;
    isHolding : bool;
    onShapeRecognized : bool;
    notified : list ShapeType;
    recognizedShape : option RecognizedShape;
    externalRecognizer : option ExternalRecognizer }.

Definition holdThreshold : Z := 500.

(** [new ShapeRecognition({ onShapeRecognized })] *)
Definition construct : ShapeRecognition :=
  {| points := [];
     holdTimeout := None;
     isHolding := false;
     onShapeRecognized := true;
     notified := [];
     recognizedShape := None;
     externalRecognizer := None |}.

Definition setPoints (s : ShapeRecognition) (pts : list Point) :=
  {| points := pts;
     holdTimeout := holdTimeout s;
     isHolding := isHolding s;
     onShapeRecognized := onShapeRecognized s;
     notified := notified s;
     recognizedShape := recognizedShape s;
     externalRecognizer := externalRecognizer s |}.

Definition setHoldTimeout (s : ShapeRecognition) (t : option Z) :=
  {| points := points s;
     holdTimeout := t;
     isHolding := isHolding s;
     onShapeRecognized := onShapeRecognized s;
     notified := notified s;
     recognizedShape := recognizedShape s;
     externalRecognizer := externalRecognizer s |}.

Definition setIsHolding (s : ShapeRecognition) (b : bool) :=
  {| points := points s;
     holdTimeout := holdTimeout s;
     isHolding := b;
     onShapeRecognized := onShapeRecognized s;
     notified := notified s;
     recognizedShape := recognizedShape s;
     externalRecognizer := externalRecognizer s |}.

Definition setRecognizedShape (s : ShapeRecognition)
  (r : option RecognizedShape) :=
  {| points := points s;
     holdTimeout := holdTimeout s;
     isHolding := isHolding s;
     onShapeRecognized := onShapeRecognized s;
     notified := notified s;
     recognizedShape := r;
     externalRecognizer := externalRecognizer s |}.

Definition setExternalRecognizer (s : ShapeRecognition)
  (r : option ExternalRecognizer) :=
  {| points := points s;
     holdTimeout := holdTimeout s;
     isHolding := isHolding s;
     onShapeRecognized := onShapeRecognized s;
     notified := notified s;
     recognizedShape := recognizedShape s;
     externalRecognizer := r |}.

(** [if (this.onShapeRecognized) this.onShapeRecognized(shape)] *)
Definition notify (s : ShapeRecognition) (shape : ShapeType) :=
  {| points := points s;
     holdTimeout := holdTimeout s;
     isHolding := isHolding s;
     onShapeRecognized := onShapeRecognized s;
     notified :=
       if onShapeRecognized s then notified s ++ [shape] else notified s;
     recognizedShape := recognizedShape s;
     externalRecognizer := externalRecognizer s |}.

Definition getRecognizedShape (s : ShapeRecognition)
  : option RecognizedShape :=
  recognizedShape s.

Definition setOnShapeRecognized (s : ShapeRecognition) : ShapeRecognition :=
  {| points := points s;
     holdTimeout := holdTimeout s;
     isHolding := isHolding s;
     onShapeRecognized := true;
     notified := notified s;
     recognizedShape := recognizedShape s;
     externalRecognizer := externalRecognizer s |}.

(** [this.points.push(p)], then [this.points.shift()] when the length
    exceeds the capacity. *)
Definition pushShift (capacity : Z) (p : Point) (pts : list Point)
  : list Point :=
  let pts := pts ++ [p] in
  if (capacity <? len pts)%Z then tl pts else pts.

(** [this.recognizedShape = { type: shape, ...params }] followed by the
    callback. *)
Definition store (s : ShapeRecognition) (shape : ShapeType) (params : Params)
  : ShapeRecognition :=
  notify (setRecognizedShape s (Some {| type := shape; bounds := params |}))
    shape.

(** The [try] block of [recognizeShape]: [Some] when the external
    recognizer produced a shape and the method returns, [None] when the
    method goes on to the internal fallback (no adapter, a null answer, or
    an exception, which the [catch] swallows).  The adapter's promise is
    taken to settle before the next event arrives. *)
Definition tryExternal (s : ShapeRecognition) : option ShapeRecognition :=
  match externalRecognizer s with
  | Some ext =>
      match recognize ext with
      | Some rec =>
          match rec (points s) with
          | Ok (Some maybeShape) =>
              let params :=
                match getParams ext with
                | Some gp => gp maybeShape (points s)
                | None => getShapeParams (typeName maybeShape) (points s)
                end in
              match params with
              | Ok params => Some (store s maybeShape params)
              | Throw _ => None
              end
          | Ok None => None
          | Throw _ => None
          end
      | None => None
      end
  | None => None
  end.

(** [recognizeShape()]: [Throw] stands for a rejected promise. *)
Definition recognizeShape (s : ShapeRecognition) : Result ShapeRecognition :=
  if (len (points s) <? 10)%Z then Ok s
  else
    match tryExternal s with
    | Some s' => Ok s'
    | None =>
        shape <- detectShape (points s) ;;
        match shape with
        | Some shape =>
            params <- getShapeParams (typeName shape) (points s) ;;
            Ok (store s shape params)
        | None => Ok (setRecognizedShape s None)
        end
    end.

(** The callback handed to [setTimeout]; the promise of [recognizeShape] is
    dropped ([void]), so a rejection leaves the fields as they are. *)
Definition holdCallback (s : ShapeRecognition) : ShapeRecognition :=
  let s := setIsHolding s true in
  match recognizeShape s with
  | Ok s' => s'
  | Throw _ => s
  end.

(** [chainIn(event)], with [now] the value of [Date.now()]. *)
Definition chainIn (s : ShapeRecognition) (event : TDrawEvent) (now : Z)
  : ShapeRecognition * option TDrawEvent :=
  let event := copyObj event in
  let s :=
    match event with
    | down ex ey _ =>
        let s := setPoints s [{| x := ex; y := ey; time := now |}] in
        let s := setIsHolding s false in
        setHoldTimeout s (Some (now + holdThreshold)%Z)
    | move ex ey _ =>
        let s :=
          setPoints s
            (pushShift 200 {| x := ex; y := ey; time := now |} (points s)) in
        if negb (isHolding s)
        then setHoldTimeout s (Some (now + holdThreshold)%Z)
        else s
    | up _ _ _ =>
        let s := setHoldTimeout s None in
        let s := setIsHolding s false in
        setPoints s []
    | drawLine _ _ _ _ _ _ => s
    end in
  (s, Some event).

(** ** Runs of the recognizer *)

(** What can happen to an instance: an event comes in, the pending hold
    timer fires, or the search for an external recognizer ends. *)
Inductive Input : Type :=
| Chain (event : TDrawEvent) (now : Z)
| TimerFires
| Loaded (r : option ExternalRecognizer).

(** The timer fires only while it is pending. *)
Definition fires (s : ShapeRecognition) (i : Input) : bool :=
  match i, holdTimeout s with
  | TimerFires, Some _ => true
  | _, _ => false
  end.

Definition step (s : ShapeRecognition) (i : Input) : ShapeRecognition :=
  match i with
  | Chain event now => fst (chainIn s event now)
  | TimerFires =>
      match holdTimeout s with
      | Some _ => holdCallback (setHoldTimeout s None)
      | None => s
      end
  | Loaded r => setExternalRecognizer s r
  end.

Definition run (s : ShapeRecognition) (trace : list Input) : ShapeRecognition :=
  fold_left step trace s.

(** Number of classification attempts, that is of firings of the hold
    timer, along a run. *)
Fixpoint attempts (s : ShapeRecognition) (trace : list Input) : nat :=
  match trace with
  | [] => 0
  | i :: rest => (if fires s i then 1 else 0) + attempts (step s i) rest
  end.

(** ** The earlier revision of the class

    The repository also carries the class as it was before the external
    recognizer and the bounding-box gates were added.  It has the same
    fields except [externalRecognizer], which it never reads nor writes,
    and the same [getShapeParams]. *)

Module Part000.

(** A number read from an array; [undefined] turns into NaN in
    arithmetic. *)
Definition num (v : option float) : float :=
  match v with
  | Some f => f
  | None => nan
  end.

Definition isCircle (points : list Point) : bool :=
  if (len points <? 20)%Z then false
  else (radiusVariance points <? avgRadius points * 0.3)%float.

Definition nearCorner (minX maxX minY maxY : float) (p : Point) : bool :=
  let near a b := (PrimFloat.abs (a - b) <? 10)%float in
  (near (x p) minX && near (y p) minY)
  || (near (x p) minX && near (y p) maxY)
  || (near (x p) maxX && near (y p) minY)
  || (near (x p) maxX && near (y p) maxY).

Definition isRectangle (points : list Point) : bool :=
  if (len points <? 20)%Z then false
  else
    let xs := Js.sort (fun a b => (a - b)%float) (map x points) in
    let ys := Js.sort (fun a b => (a - b)%float) (map y points) in
    let minX := num (Js.at_ xs 0) in
    let maxX := num (Js.at_ xs (Z.of_nat (length xs) - 1)) in
    let minY := num (Js.at_ ys 0) in
    let maxY := num (Js.at_ ys (Z.of_nat (length ys) - 1)) in
    let cornerCount :=
      fold_left
        (fun cornerCount p =>
           if nearCorner minX maxX minY maxY p then S cornerCount
           else cornerCount)
        points 0%nat in
    (3 <=? cornerCount)%nat.

Definition isLine (points : list Point) : Result bool :=
  if (len points <? 10)%Z then Ok false
  else
    start <- elem points 0 ;;
    end_ <- elem points (len points - 1) ;;
    let dx := (x end_ - x start)%float in
    let dy := (y end_ - y start)%float in
    let length := chordLength dx dy in
    if (length <? 20)%float then Ok false
    else
      let totalDeviation :=
        fold_left
          (fun total i =>
             let p := nth i points start in
             (total
              + PrimFloat.abs (dy * (x p - x start) - dx * (y p - y start))
                / length)%float)
          (interior points) 0%float in
      let avgDeviation :=
        (totalDeviation / (Js.ofNat (List.length points) - 2))%float in
      Ok (avgDeviation <? 5)%float.

Definition detectShape (points : list Point) : Result (option ShapeType) :=
  if (len points <? 10)%Z then Ok None
  else if isCircle points then Ok (Some circle)
  else if isRectangle points then Ok (Some rectangle)
  else
    l <- isLine points ;;
    if l : bool then Ok (Some line) else Ok None.

(** No [else] branch: a failed attempt writes nothing. *)
Definition recognizeShape (s : ShapeRecognition) : Result ShapeRecognition :=
  if (len (points s) <? 10)%Z then Ok s
  else
    shape <- detectShape (points s) ;;
    match shape with
    | Some shape =>
        params <- getShapeParams (typeName shape) (points s) ;;
        Ok (store s shape params)
    | None => Ok s
    end.

Definition holdCallback (s : ShapeRecognition) : ShapeRecognition :=
  let s := setIsHolding s true in
  match recognizeShape s with
  | Ok s' => s'
  | Throw _ => s
  end.

Definition chainIn (s : ShapeRecognition) (event : TDrawEvent) (now : Z)
  : ShapeRecognition * option TDrawEvent :=
  let event := copyObj event in
  let s :=
    match event with
    | down ex ey _ =>
        let s := setPoints s [{| x := ex; y := ey; time := now |}] in
        let s := setIsHolding s false in
        setHoldTimeout s (Some (now + holdThreshold)%Z)
    | move ex ey _ =>
        let s :=
          setPoints s
            (pushShift 100 {| x := ex; y := ey; time := now |} (points s)) in
        if negb (isHolding s)
        then setHoldTimeout s (Some (now + holdThreshold)%Z)
        else s
    | up _ _ _ =>
        let s := setHoldTimeout s None in
        let s := setIsHolding s false in
        setPoints s []
    | drawLine _ _ _ _ _ _ => s
    end in
  (s, Some event).

Definition step (s : ShapeRecognition) (i : Input) : ShapeRecognition :=
  match i with
  | Chain event now => fst (chainIn s event now)
  | TimerFires =>
      match holdTimeout s with
      | Some _ => holdCallback (setHoldTimeout s None)
      | None => s
      end
  | Loaded _ => s
  end.

Definition run (s : ShapeRecognition) (trace : list Input)
  : ShapeRecognition :=
  fold_left step trace s.

End Part000.


(** ** The adapters built by [loadExternalRecognizer]

    When a module loads, [loadExternalRecognizer] wraps what it exports in
    one of three adapters.  The exports are code of that module: they are
    taken here as functions that return, throw ([Throw]; also what calling
    a value that is no function does), or answer something falsy ([None]).
    The objects they answer are read through a few fields, each a number
    or [undefined] ([None]). *)

(** [pts.map(p => ({ x: p.x, y: p.y }))] *)
Definition normalizePoints (pts : list Point) : list TVector2D :=
  map (fun p => {| vx := x p; vy := y p |}) pts.

Record EllipseFit : Type :=
  { cx : option float; cy : option float;
    rx : option float; ry : option float; r : option float }.

Record RectFit : Type :=
  { rectX : option float; rectY : option float;
    rectWidth : option float; rectHeight : option float }.

Record LineFit : Type :=
  { lineX1 : option float; lineY1 : option float;
    lineX2 : option float; lineY2 : option float }.

Definition Helper (A : Type) : Type := list TVector2D -> Result (option A).

(** A number read from a field that may be [undefined], which arithmetic
    turns into NaN. *)
Definition toNumber (v : option float) : float :=
  match v with
  | Some f => f
  | None => nan
  end.

(** [a ?? b] *)
Definition nullish (v : option float) (b : float) : float :=
  match v with
  | Some f => f
  | None => b
  end.

(** [try { const r = helper(pts); if (r) return ...; } catch {}], guarded
    by [if (helper)]: whether the helper is there and answers something
    truthy. *)
Definition hits {A : Type} (helper : option (Helper A))
  (pts : list TVector2D) : bool :=
  match helper with
  | Some f =>
      match f pts with
      | Ok (Some _) => true
      | Ok None => false
      | Throw _ => false
      end
  | None => false
  end.

(** The [recognize] member of the second and third adapter: circle first,
    then rectangle, then line. *)
Definition recognizeByHelpers (getEllipse : option (Helper EllipseFit))
  (getRect : option (Helper RectFit)) (getLine : option (Helper LineFit))
  (points : list Point) : Result (option ShapeType) :=
  let pts := normalizePoints points in
  if hits getEllipse pts then Ok (Some circle)
  else if hits getRect pts then Ok (Some rectangle)
  else if hits getLine pts then Ok (Some line)
  else Ok None.


(** The three attempts of the second adapter's [getParams]; [None] stands
    for falling through to the next statement. *)
Definition ellipseParams (getEllipse : option (Helper EllipseFit))
  (pts : list TVector2D) : Result (option Params) :=
  match getEllipse with
  | Some f =>
      ell <- f pts ;;
      match ell with
      | Some ell =>
          match cx ell, cy ell, rx ell, ry ell with
          | Some cx, Some cy, Some rx, Some ry =>
              let r := Js.Math_max [rx; ry] in
              Ok (Some {| x1 := Some (cx - r)%float;
                          y1 := Some (cy - r)%float;
                          x2 := Some (cx + r)%float;
                          y2 := Some (cy + r)%float |})
          | _, _, _, _ => Ok None
          end
      | None => Ok None
      end
  | None => Ok None
  end.

Definition rectParams (getRect : option (Helper RectFit))
  (pts : list TVector2D) : Result (option Params) :=
  match getRect with
  | Some f =>
      r <- f pts ;;
      match r with
      | Some r =>
          match rectX r, rectY r, rectWidth r, rectHeight r with
          | Some x, Some y, Some width, Some height =>
              Ok (Some {| x1 := Some x; y1 := Some y;
                          x2 := Some (x + width)%float;
                          y2 := Some (y + height)%float |})
          | _, _, _, _ => Ok None
          end
      | None => Ok None
      end
  | None => Ok None
  end.

Definition lineParams (getLine : option (Helper LineFit))
  (pts : list TVector2D) : Result (option Params) :=
  match getLine with
  | Some f =>
      l <- f pts ;;
      match l with
      | Some l =>
          match lineX1 l with
          | Some _ =>
              Ok (Some {| x1 := lineX1 l; y1 := lineY1 l;
                          x2 := lineX2 l; y2 := lineY2 l |})
          | None => Ok None
          end
      | None => Ok None
      end
  | None => Ok None
  end.

(** Second adapter: the module exports helpers that fit an ellipse, a
    rectangle or a line.  In [getParams] the helpers are called outside
    any [try]. *)
Definition helperAdapter (getEllipse : option (Helper EllipseFit))
  (getRect : option (Helper RectFit)) (getLine : option (Helper LineFit))
  : ExternalRecognizer :=
  {| recognize := Some (recognizeByHelpers getEllipse getRect getLine);
     getParams :=
       Some (fun type points =>
               let pts := normalizePoints points in
               fitted <-
                 match type with
                 | circle => ellipseParams getEllipse pts
                 | rectangle => rectParams getRect pts
                 | line => lineParams getLine pts
                 end ;;
               match fitted with
               | Some params => Ok params
               | None => getShapeParams (typeName type) points
               end) |}.

(** The circle attempt of the third adapter: only [cx] is checked, and the
    radius is [out.r ?? Math.max(out.rx ?? 0, out.ry ?? 0)]. *)
Definition ellipseParamsByHeuristic (fnEllipse : option (Helper EllipseFit))
  (pts : list TVector2D) : Result (option Params) :=
  match fnEllipse with
  | Some f =>
      out <- f pts ;;
      match out with
      | Some out =>
          match cx out with
          | Some cx =>
              let cy := toNumber (cy out) in
              let r :=
                nullish (r out)
                  (Js.Math_max [nullish (rx out) 0; nullish (ry out) 0]) in
              Ok (Some {| x1 := Some (cx - r)%float;
                          y1 := Some (cy - r)%float;
                          x2 := Some (cx + r)%float;
                          y2 := Some (cy + r)%float |})
          | None => Ok None
          end
      | None => Ok None
      end
  | None => Ok None
  end.

(** Third adapter: functions found by scanning the names of the exports.
    Here the extraction sits in a [try] whose [catch] ignores the error. *)
Definition heuristicAdapter (fnEllipse : option (Helper EllipseFit))
  (fnRect : option (Helper RectFit)) (fnLine : option (Helper LineFit))
  : ExternalRecognizer :=
  {| recognize := Some (recognizeByHelpers fnEllipse fnRect fnLine);
     getParams :=
       Some (fun type points =>
               let pts := normalizePoints points in
               let fitted :=
                 match type with
                 | circle => ellipseParamsByHeuristic fnEllipse pts
                 | rectangle => rectParams fnRect pts
                 | line => lineParams fnLine pts
                 end in
               match fitted with
               | Ok (Some params) => Ok params
               | Ok None => getShapeParams (typeName type) points
               | Throw _ => getShapeParams (typeName type) points
               end) |}.
(** * Vocabulary of the properties and sample data *)

Definition pt (a b : float) : Point := {| x := a; y := b; time := 0 |}.

(** A stroke from (0,0) to (200,2) in steps of (10,0.1). *)
Definition thinStroke : list Point :=
  map (fun i => pt (Js.ofNat i * 10) (Js.ofNat i * 0.1)) (seq 0 21).

(** Ten samples: from (0,0), eight times through (50,50), to (100,0). *)
Definition scribble : list Point :=
  pt 0 0 :: repeat (pt 50 50) 8 ++ [pt 100 0].

(** The pointer pressed and held still: ten samples at (0,0). *)
Definition still : list Point := repeat (pt 0 0) 10.

(** Twice around twelve points at distance 50 from (100,100). *)
Definition ring : list Point :=
  map (fun '(a, b) => pt (100 + a) (100 + b))
    [(50, 0); (40, 30); (30, 40); (0, 50); (-30, 40); (-40, 30);
     (-50, 0); (-40, -30); (-30, -40); (0, -50); (30, -40); (40, -30);
     (50, 0); (40, 30); (30, 40); (0, 50); (-30, 40); (-40, 30);
     (-50, 0); (-40, -30); (-30, -40); (0, -50); (30, -40); (40, -30)]%float.

(** Along the sides of the box from (0,0) to (100,60) in steps of 10. *)
Definition box : list Point :=
  map (fun i => pt (Js.ofNat i * 10) 0) (seq 0 11)
  ++ map (fun i => pt 100 (Js.ofNat i * 10)) (seq 1 6)
  ++ map (fun i => pt (100 - Js.ofNat i * 10) 60) (seq 1 10)
  ++ map (fun i => pt 0 (60 - Js.ofNat i * 10)) (seq 0 6).

(** An instance that stored a line and then buffered [scribble]. *)
Definition afterLine : ShapeRecognition :=
  setPoints
    (setRecognizedShape construct
       (Some {| type := line;
                bounds := {| x1 := Some 0%float; y1 := Some 0%float;
                             x2 := Some 200%float; y2 := Some 2%float |} |}))
    scribble.

(** The decision procedure of [detectShape] with the circle and rectangle
    tests left open, to tell which answers depend on them. *)
Definition detectWith (circleTest rectangleTest : list Point -> bool)
  (points : list Point) : Result (option ShapeType) :=
  if (len points <? 10)%Z then Ok None
  else
    let aspect := aspect points in
    if elongated aspect then
      l <- isLine points ;;
      if l : bool then Ok (Some line) else Ok None
    else if nearSquare aspect && circleTest points then Ok (Some circle)
    else if rectangleTest points then Ok (Some rectangle)
    else
      l <- isLine points ;;
      if l : bool then Ok (Some line) else Ok None.

Ltac split_match :=
  repeat match goal with
    | |- context [match ?c with _ => _ end] => destruct c eqn:?
    | H : context [match ?c with _ => _ end] |- _ => destruct c eqn:?
    end.

(** The fields that drive the buffer and the timer. *)
Definition sameControl (s s' : ShapeRecognition) : Prop :=
  points s' = points s
  /\ holdTimeout s' = holdTimeout s
  /\ isHolding s' = isHolding s
  /\ externalRecognizer s' = externalRecognizer s.

(** The [n] last elements of a list, in their order. *)
Definition lastN (A : Type) (n : nat) (l : list A) : list A :=
  skipn (length l - n) l.

(** The samples of the stroke in progress: a down event starts afresh, a
    move event adds a sample, an up event empties the stroke. *)
Definition sample (acc : list Point) (i : Input) : list Point :=
  match i with
  | Chain (down ex ey _) now => [{| x := ex; y := ey; time := now |}]
  | Chain (move ex ey _) now => acc ++ [{| x := ex; y := ey; time := now |}]
  | Chain (up _ _ _) _ => []
  | _ => acc
  end.

Definition samples (trace : list Input) : list Point :=
  fold_left sample trace [].

(** Inputs that neither start nor end a stroke. *)
Definition withinStroke (i : Input) : bool :=
  match i with
  | Chain (down _ _ _) _ | Chain (up _ _ _) _ => false
  | _ => true
  end.

(** What a move event does to the buffer; other inputs leave it alone. *)
Definition appendMove (pts : list Point) (i : Input) : list Point :=
  match i with
  | Chain (move ex ey _) now =>
      pushShift 200 {| x := ex; y := ey; time := now |} pts
  | _ => pts
  end.

(** The state after the hold timer fired: holding, nothing pending. *)
Definition holding (s : ShapeRecognition) : Prop :=
  isHolding s = true /\ holdTimeout s = None.

Definition someProps : TDrawingProps :=
  {| pressure := 1; isCoalesced := false;
     shiftIsPressed := false; scale := 1 |}.

(** A press at (0,0) and the hold timer firing on it. *)
Definition pressAndHold : list Input :=
  [Chain (down 0 0 someProps) 0; TimerFires].

(** Two more move events, with a stray timer tick in between. *)
Definition thenDrag : list Input :=
  [Chain (move 1 1 someProps) 600; TimerFires;
   Chain (move 2 2 someProps) 1200].

(** A press at (0,0), nine move events at the same place, and the hold
    timer firing. *)
Definition pressAndStay : list Input :=
  Chain (down 0 0 someProps) 0
  :: repeat (Chain (move 0 0 someProps) 0) 9 ++ [TimerFires].

Definition stillVectors : list TVector2D :=
  repeat {| vx := 0; vy := 0 |} 10.

Definition heldThinStroke : ShapeRecognition := setPoints construct thinStroke.

(** ** Vocabulary for binary64 numbers *)

(** [a <= b] on numbers; false as soon as one of them is NaN. *)
Definition fle (a b : float) : Prop := (a <=? b)%float = true.

(** Numbers proper: no NaN among them. *)
Definition numbers (l : list float) : Prop :=
  Forall (fun a => Js.isNaN a = false) l.

Definition hasNumbers (p : Point) : bool :=
  negb (Js.isNaN (x p)) && negb (Js.isNaN (y p)).

(** The comparator [(a, b) => a - b]. *)
Definition ascending (a b : float) : float := (a - b)%float.

Definition isMinimumOf (m : float) (l : list float) : Prop :=
  In m l /\ forall v, In v l -> fle m v.

Definition isMaximumOf (m : float) (l : list float) : Prop :=
  In m l /\ forall v, In v l -> fle v m.

(** Position of a number in the order of the floats. *)
Definition rank (x : spec_float) : option (Z * Z * Z) :=
  match x with
  | S754_nan => None
  | S754_infinity true => Some (-2, 0, 0)%Z
  | S754_infinity false => Some (2, 0, 0)%Z
  | S754_zero _ => Some (0, 0, 0)%Z
  | S754_finite true m e => Some (-1, - e, Zneg m)%Z
  | S754_finite false m e => Some (1, e, Zpos m)%Z
  end.

Definition lexcmp (a b : Z * Z * Z) : comparison :=
  let '(a1, a2, a3) := a in
  let '(b1, b2, b3) := b in
  match (a1 ?= b1)%Z with
  | Eq => match (a2 ?= b2)%Z with
          | Eq => (a3 ?= b3)%Z
          | c => c
          end
  | c => c
  end.

Definition lexle (a b : Z * Z * Z) : Prop :=
  let '(a1, a2, a3) := a in
  let '(b1, b2, b3) := b in
  (a1 < b1 \/ (a1 = b1 /\ (a2 < b2 \/ (a2 = b2 /\ a3 <= b3))))%Z.

Abbreviation emin := (SpecFloat.emin prec emax).
Abbreviation fexp := (SpecFloat.fexp prec emax).

(** A spec float that is finite or infinite with sign [s]. *)
Definition signed (s : bool) (x : spec_float) : Prop :=
  x = S754_infinity s \/ exists m e, x = S754_finite s m e.

(** A spec float of sign [s] that is not NaN. *)
Definition has_sign (s : bool) (x : spec_float) : Prop :=
  x = S754_zero s \/ x = S754_infinity s \/ exists m e, x = S754_finite s m e.

(** ** Vocabulary of the further properties *)

(** The coordinates of a point, without its time. *)
Definition coords (p : Point) : float * float := (x p, y p).

(** A point with its time set to 0. *)
Definition untimed (p : Point) : Point :=
  {| x := x p; y := y p; time := 0 |}.

Definition thinVectors : list TVector2D :=
  map (fun p => {| vx := x p; vy := y p |}) thinStroke.

(** An instance that stored a line, buffered [scribble] and has its hold
    timer pending. *)
Definition afterLineArmed : ShapeRecognition :=
  setHoldTimeout afterLine (Some 500%Z).

(** What every run of an instance keeps true about its hold timer: none is
    pending while holding, and a pending one is due [holdThreshold] after
    the time of the last buffered sample. *)
Definition timerInvariant (s : ShapeRecognition) : Prop :=
  (isHolding s = true -> holdTimeout s = None)
  /\ (forall due,
        holdTimeout s = Some due ->
        exists front p,
          points s = front ++ [p] /\ due = (time p + holdThreshold)%Z).

(** The stored shape is the one the callback was last called with. *)
Definition storedIsLastNotified (s : ShapeRecognition) : Prop :=
  onShapeRecognized s = true
  /\ (forall r,
        recognizedShape s = Some r ->
        exists before, notified s = before ++ [type r]).

(** The mean deviation as the earlier revision computes it: no guard on
    the divisors. *)
Definition earlierAvgDeviation (points : list Point) (start : Point)
  (dx dy length : float) : float :=
  (fold_left
     (fun total i =>
        let p := nth i points start in
        (total
         + PrimFloat.abs (dy * (x p - x start) - dx * (y p - y start))
           / length)%float)
     (interior points) 0%float
   / (Js.ofNat (List.length points) - 2))%float.

(** Some point lies within the corner threshold of both coordinates of a
    corner of the bounding box. *)
Definition hitsCorner (points : list Point) (cornerX cornerY : float)
  : bool :=
  existsb
    (fun p =>
       (PrimFloat.abs (x p - cornerX) <? cornerThreshold points)%float
       && (PrimFloat.abs (y p - cornerY) <? cornerThreshold points)%float)
    points.

(** Putting an adapter back on the instance an attempt without it left. *)
Definition withAdapterOf (s : ShapeRecognition)
  (r : Result ShapeRecognition) : Result ShapeRecognition :=
  match r with
  | Ok s' => Ok (setExternalRecognizer s' (externalRecognizer s))
  | Throw e => Throw e
  end.

(** A helper that finds an ellipse in every stroke, and one that throws. *)
Definition alwaysEllipse : Helper EllipseFit :=
  fun _ =>
    Ok (Some {| cx := Some 10%float; cy := Some 20%float;
                rx := Some 3%float; ry := Some 4%float; r := None |}).


(** Inputs of an instance for which no external recognizer is found. *)
Definition noAdapter (i : Input) : bool :=
  match i with
  | Loaded (Some _) => false
  | _ => true
  end.

Definition definedBounds (p : Params) : Prop :=
  exists a b c d,
    p = {| x1 := Some a; y1 := Some b; x2 := Some c; y2 := Some d |}.

(** No adapter, and a stored shape has four defined bounds. *)
Definition builtinInvariant (s : ShapeRecognition) : Prop :=
  externalRecognizer s = None
  /\ (forall r, recognizedShape s = Some r -> definedBounds (bounds r)).

(** A helper that answers a line of which only [x1] is known. *)
Definition halfLine : Helper LineFit :=
  fun _ =>
    Ok (Some {| lineX1 := Some 1%float; lineY1 := None;
                lineX2 := None; lineY2 := None |}).

(** * Properties *)

(** ** The order of binary64 numbers *)

Lemma SFcompare_rank (x y : spec_float) :
  SFcompare x y =
  match rank x, rank y with
  | Some a, Some b => Some (lexcmp a b)
  | _, _ => None
  end.
Proof.
  destruct x as [sx|sx| |sx mx ex], y as [sy|sy| |sy my ey];
    try destruct sx; try destruct sy; try reflexivity.
  cbn [SFcompare rank lexcmp].
  change (-1 ?= -1)%Z with Eq. cbv iota.
  rewrite Z.compare_opp, (Z.compare_antisym ex ey).
  destruct (ex ?= ey)%Z; cbn [CompOpp]; reflexivity.
Qed.

Lemma lexcmp_le (a b : Z * Z * Z) : lexcmp a b <> Gt <-> lexle a b.
Proof.
  destruct a as [[a1 a2] a3], b as [[b1 b2] b3]. unfold lexcmp, lexle.
  destruct (Z.compare_spec a1 b1);
    [|split; [lia|congruence]|split; [congruence|lia]].
  destruct (Z.compare_spec a2 b2);
    [|split; [lia|congruence]|split; [congruence|lia]].
  destruct (Z.compare_spec a3 b3); split; try congruence; lia.
Qed.

Lemma lexcmp_lt (a b : Z * Z * Z) : lexcmp a b = Lt <-> ~ lexle b a.
Proof.
  destruct a as [[a1 a2] a3], b as [[b1 b2] b3]. unfold lexcmp, lexle.
  destruct (Z.compare_spec a1 b1);
    [|split; [lia|congruence]|split; [congruence|lia]].
  destruct (Z.compare_spec a2 b2);
    [|split; [lia|congruence]|split; [congruence|lia]].
  destruct (Z.compare_spec a3 b3); split; try congruence; lia.
Qed.

(** The comparisons of two floats read on their ranks. *)
Lemma leb_rank (a b : float) :
  (a <=? b)%float = true <->
  exists ra rb,
    rank (Prim2SF a) = Some ra /\ rank (Prim2SF b) = Some rb /\ lexle ra rb.
Proof.
  rewrite leb_spec. unfold SFleb. rewrite SFcompare_rank.
  destruct (rank (Prim2SF a)) as [ra|], (rank (Prim2SF b)) as [rb|].
  - split.
    + intros H. exists ra, rb. repeat split. apply lexcmp_le.
      destruct (lexcmp ra rb); congruence.
    + intros (ra' & rb' & [= <-] & [= <-] & H). apply lexcmp_le in H.
      destruct (lexcmp ra rb); congruence.
  - split; [discriminate|]. intros (? & ? & _ & H & _). discriminate.
  - split; [discriminate|]. intros (? & ? & H & _). discriminate.
  - split; [discriminate|]. intros (? & ? & H & _). discriminate.
Qed.

Lemma ltb_rank (a b : float) :
  (a <? b)%float = true <->
  exists ra rb,
    rank (Prim2SF a) = Some ra /\ rank (Prim2SF b) = Some rb /\ ~ lexle rb ra.
Proof.
  rewrite ltb_spec. unfold SFltb. rewrite SFcompare_rank.
  destruct (rank (Prim2SF a)) as [ra|], (rank (Prim2SF b)) as [rb|].
  - split.
    + intros H. exists ra, rb. repeat split. apply lexcmp_lt.
      destruct (lexcmp ra rb); congruence.
    + intros (ra' & rb' & [= <-] & [= <-] & H). apply lexcmp_lt in H.
      rewrite H. reflexivity.
  - split; [discriminate|]. intros (? & ? & _ & H & _). discriminate.
  - split; [discriminate|]. intros (? & ? & H & _). discriminate.
  - split; [discriminate|]. intros (? & ? & H & _). discriminate.
Qed.

Lemma isNaN_rank (a : float) :
  Js.isNaN a = false <-> exists ra, rank (Prim2SF a) = Some ra.
Proof.
  unfold Js.isNaN. rewrite negb_false_iff, eqb_spec. unfold SFeqb.
  rewrite SFcompare_rank. destruct (rank (Prim2SF a)) as [[[a1 a2] a3]|].
  - unfold lexcmp. rewrite !Z.compare_refl. split; eauto.
  - split; [discriminate|]. intros [? H]. discriminate.
Qed.

Lemma float_leb_trans (a b c : float) :
  (a <=? b)%float = true -> (b <=? c)%float = true -> (a <=? c)%float = true.
Proof.
  rewrite !leb_rank.
  intros (ra & rb & Ha & Hb & Hab) (rb' & rc & Hb' & Hc & Hbc).
  rewrite Hb in Hb'. injection Hb' as <-.
  exists ra, rc. repeat split; try assumption.
  destruct ra as [[? ?] ?], rb as [[? ?] ?], rc as [[? ?] ?].
  unfold lexle in *. lia.
Qed.

Lemma float_leb_refl (a : float) : Js.isNaN a = false -> (a <=? a)%float = true.
Proof.
  rewrite isNaN_rank, leb_rank. intros [ra H]. exists ra, ra.
  repeat split; try assumption. destruct ra as [[? ?] ?]. unfold lexle. lia.
Qed.

Lemma float_ltb_leb (a b : float) :
  (a <? b)%float = true -> (a <=? b)%float = true.
Proof.
  rewrite ltb_rank, leb_rank. intros (ra & rb & Ha & Hb & H).
  exists ra, rb. repeat split; try assumption.
  destruct ra as [[? ?] ?], rb as [[? ?] ?]. unfold lexle in *. lia.
Qed.

Lemma float_ltb_false_leb (a b : float) :
  Js.isNaN a = false -> Js.isNaN b = false ->
  (a <? b)%float = false -> (b <=? a)%float = true.
Proof.
  rewrite !isNaN_rank. intros [ra Ha] [rb Hb] H.
  apply leb_rank. exists rb, ra. repeat split; try assumption.
  assert (D : lexle rb ra \/ ~ lexle rb ra).
  { destruct ra as [[? ?] ?], rb as [[? ?] ?]. unfold lexle. lia. }
  destruct D as [D|D]; [assumption|].
  assert (Hlt : (a <? b)%float = true) by (apply ltb_rank; eauto).
  congruence.
Qed.

(** ** Subtraction and order *)

Section Rounding.

Local Open Scope Z_scope.

Lemma emin_value : emin = -1074.
Proof. reflexivity. Qed.

Lemma fexp_ge_emin (e : Z) : emin <= fexp e.
Proof. unfold SpecFloat.fexp. lia. Qed.

Lemma digits_bounds (m : positive) :
  2 ^ (Zpos (digits2_pos m) - 1) <= Zpos m < 2 ^ Zpos (digits2_pos m).
Proof.
  induction m as [m IH|m IH|]; cbn [digits2_pos].
  - rewrite Pos2Z.inj_succ.
    replace (Z.succ (Zpos (digits2_pos m)) - 1)
      with (Z.succ (Zpos (digits2_pos m) - 1)) by lia.
    rewrite !Z.pow_succ_r by lia. lia.
  - rewrite Pos2Z.inj_succ.
    replace (Z.succ (Zpos (digits2_pos m)) - 1)
      with (Z.succ (Zpos (digits2_pos m) - 1)) by lia.
    rewrite !Z.pow_succ_r by lia. lia.
  - cbn. lia.
Qed.

Lemma iter_xO (m d : positive) :
  Zpos (Pos.iter xO m d) = Zpos m * 2 ^ Zpos d.
Proof.
  induction d as [|d IH] using Pos.peano_ind.
  - cbn. lia.
  - rewrite Pos.iter_succ, Pos2Z.inj_succ, Z.pow_succ_r by lia.
    rewrite Pos2Z.inj_xO, IH. lia.
Qed.

(** The aligned mantissa. *)
Lemma shl_align_value (m : positive) (e e' : Z) :
  e' <= e -> Zpos (fst (shl_align m e e')) = Zpos m * 2 ^ (e - e').
Proof.
  intros H. unfold shl_align.
  destruct (e' - e) as [|d|d] eqn:E; try lia.
  - replace (e - e') with 0 by lia. cbn [fst]. lia.
  - cbn [fst]. rewrite iter_xO. f_equal. f_equal. lia.
Qed.

Lemma shl_align_exponent (m : positive) (e e' : Z) :
  snd (shl_align m e e') = Z.min e e'.
Proof.
  unfold shl_align. destruct (e' - e) as [|d|d] eqn:E; cbn [snd]; lia.
Qed.

Lemma shr_1_m (r : shr_record) :
  0 <= shr_m r -> shr_m (shr_1 r) = shr_m r / 2.
Proof.
  destruct r as [m r s]. cbn [shr_m]. intros H.
  destruct m as [|[p|p|]|p]; cbn [shr_1 shr_m]; try lia;
    Z.div_mod_to_equations; lia.
Qed.

Lemma iter_shr_m (p : positive) (r : shr_record) :
  0 <= shr_m r ->
  shr_m (iter_pos shr_1 p r) = shr_m r / 2 ^ Zpos p.
Proof.
  revert r. induction p as [p IH|p IH|]; intros r H; cbn [iter_pos].
  - assert (H1 : 0 <= shr_m (shr_1 r)).
    { rewrite shr_1_m by assumption. apply Z.div_pos; lia. }
    assert (H2 : 0 <= shr_m (iter_pos shr_1 p (shr_1 r))).
    { rewrite IH by assumption. apply Z.div_pos; lia. }
    rewrite IH, IH, shr_1_m by assumption.
    rewrite !Z.div_div by lia. f_equal.
    rewrite (Pos2Z.inj_xI p).
    replace (2 * Zpos p + 1) with (1 + Zpos p + Zpos p) by lia.
    rewrite !Z.pow_add_r by lia. lia.
  - assert (H2 : 0 <= shr_m (iter_pos shr_1 p r)).
    { rewrite IH by assumption. apply Z.div_pos; lia. }
    rewrite IH, IH by assumption.
    rewrite !Z.div_div by lia. f_equal.
    rewrite (Pos2Z.inj_xO p).
    replace (2 * Zpos p) with (Zpos p + Zpos p) by lia.
    rewrite Z.pow_add_r by lia. reflexivity.
  - rewrite shr_1_m by assumption. reflexivity.
Qed.

Lemma shr_record_of_loc_m (m : Z) (l : location) :
  shr_m (shr_record_of_loc m l) = m.
Proof. destruct l as [|[| |]]; reflexivity. Qed.

(** Shifting to the format's exponent never loses a positive mantissa, as
    long as the exponent is not below [emin]. *)
Lemma shr_fexp_pos (m e : Z) (l : location) :
  0 < m -> emin <= e ->
  0 < shr_m (fst (shr_fexp prec emax m e l))
  /\ emin <= snd (shr_fexp prec emax m e l).
Proof.
  intros Hm He. unfold shr_fexp, shr.
  destruct m as [|p|p]; try lia. cbn [Zdigits2].
  destruct (fexp (Zpos (digits2_pos p) + e) - e) as [|n|n] eqn:En;
    cbn [fst snd]; rewrite ?shr_record_of_loc_m; try lia.
  rewrite iter_shr_m by (rewrite shr_record_of_loc_m; lia).
  rewrite shr_record_of_loc_m.
  unfold SpecFloat.fexp in En. rewrite emin_value in *.
  change prec with 53 in En.
  assert (Hn : Zpos n <= Zpos (digits2_pos p) - 1) by lia.
  destruct (digits_bounds p) as [Hlo _].
  split; [|lia].
  apply Z.div_str_pos. split; [apply Z.pow_pos_nonneg; lia|].
  eapply Z.le_trans; [|exact Hlo]. apply Z.pow_le_mono_r; lia.
Qed.

Lemma round_nearest_even_pos (m : Z) (l : location) :
  0 < m -> 0 < round_nearest_even m l.
Proof.
  intros H. unfold round_nearest_even.
  destruct l as [|[| |]]; try lia. destruct (Z.even m); lia.
Qed.

Lemma binary_round_aux_signed (s : bool) (m e : Z) (l : location) :
  0 < m -> emin <= e -> signed s (binary_round_aux prec emax s m e l).
Proof.
  intros Hm He. unfold binary_round_aux.
  destruct (@shr_fexp_pos m e l Hm He) as [H1 H1'].
  destruct (shr_fexp prec emax m e l) as [mrs' e'] eqn:E1.
  cbn [fst snd] in H1, H1'.
  pose proof (@round_nearest_even_pos _ (loc_of_shr_record mrs') H1) as Hr.
  destruct (@shr_fexp_pos _ e' loc_Exact Hr H1') as [H2 _].
  destruct (shr_fexp prec emax _ e' loc_Exact) as [mrs'' e''] eqn:E2.
  cbn [fst] in H2.
  destruct (shr_m mrs'') as [|m''|m'']; try lia.
  destruct (e'' <=? emax - prec); [right; eauto|left; reflexivity].
Qed.

Lemma binary_round_signed (s : bool) (m : positive) (e : Z) :
  emin <= e -> signed s (binary_round prec emax s m e).
Proof.
  intros He. unfold binary_round.
  pose proof (shl_align_exponent m e (fexp (Zpos (digits2_pos m) + e))) as Hs.
  destruct (shl_align m e _) as [mz ez]. cbn [snd] in Hs.
  apply binary_round_aux_signed; [lia|].
  pose proof (fexp_ge_emin (Zpos (digits2_pos m) + e)). lia.
Qed.

(** The sign of a normalized difference is the sign of the difference. *)
Lemma binary_normalize_sign (d e : Z) :
  emin <= e ->
  SFltb (S754_zero false) (binary_normalize prec emax d e false) = (0 <? d).
Proof.
  intros He. unfold binary_normalize. destruct d as [|p|p].
  - reflexivity.
  - destruct (@binary_round_signed false p e He) as [->|(m' & e' & ->)];
      reflexivity.
  - destruct (@binary_round_signed true p e He) as [->|(m' & e' & ->)];
      reflexivity.
Qed.

Lemma canonical_bounds (m : positive) (e : Z) :
  canonical_mantissa prec emax m e = true ->
  emin <= e
  /\ Zpos (digits2_pos m) <= 53
  /\ (e = emin \/ Zpos (digits2_pos m) = 53).
Proof.
  unfold canonical_mantissa, SpecFloat.fexp. rewrite emin_value.
  change prec with 53. intros H. apply Z.eqb_eq in H. lia.
Qed.

Lemma valid_canonical (s : bool) (m : positive) (e : Z) :
  valid_binary (S754_finite s m e) = true ->
  canonical_mantissa prec emax m e = true.
Proof.
  cbn [SpecFloat.valid_binary]. unfold bounded. intros H.
  apply andb_prop in H. tauto.
Qed.

(** On canonical mantissas the order of the magnitudes is the order of
    the exponents, then of the mantissas. *)
Lemma magnitude_compare (mx my : positive) (ex ey : Z) :
  canonical_mantissa prec emax mx ex = true ->
  canonical_mantissa prec emax my ey = true ->
  (Zpos (fst (shl_align mx ex (Z.min ex ey)))
   ?= Zpos (fst (shl_align my ey (Z.min ex ey))))
  = match ex ?= ey with
    | Eq => (mx ?= my)%positive
    | c => c
    end.
Proof.
  intros Hx Hy.
  apply canonical_bounds in Hx as (Hex & Hdx & Hnx).
  apply canonical_bounds in Hy as (Hey & Hdy & Hny).
  rewrite !shl_align_value by lia.
  destruct (digits_bounds mx) as [Hlx Hux].
  destruct (digits_bounds my) as [Hly Huy].
  assert (H53 : 2 ^ 53 = 2 * 2 ^ 52) by reflexivity.
  destruct (Z.compare_spec ex ey) as [E|E|E].
  - subst ey. rewrite Z.min_id, Z.sub_diag, Z.pow_0_r, !Z.mul_1_r.
    reflexivity.
  - rewrite Z.min_l by lia. rewrite Z.sub_diag, Z.pow_0_r, Z.mul_1_r.
    apply Z.compare_lt_iff.
    assert (Hd : Zpos (digits2_pos my) = 53) by lia.
    rewrite Hd in Hly. change (53 - 1) with 52 in Hly.
    assert (Hp : 2 ^ 1 <= 2 ^ (ey - ex)) by (apply Z.pow_le_mono_r; lia).
    assert (Hm : 2 ^ Zpos (digits2_pos mx) <= 2 ^ 53)
      by (apply Z.pow_le_mono_r; lia).
    change (2 ^ 1) with 2 in Hp. nia.
  - rewrite Z.min_r by lia. rewrite Z.sub_diag, Z.pow_0_r, Z.mul_1_r.
    apply Z.compare_gt_iff.
    assert (Hd : Zpos (digits2_pos mx) = 53) by lia.
    rewrite Hd in Hlx. change (53 - 1) with 52 in Hlx.
    assert (Hp : 2 ^ 1 <= 2 ^ (ex - ey)) by (apply Z.pow_le_mono_r; lia).
    assert (Hm : 2 ^ Zpos (digits2_pos my) <= 2 ^ 53)
      by (apply Z.pow_le_mono_r; lia).
    change (2 ^ 1) with 2 in Hp. nia.
Qed.

(** The difference of two numbers is positive exactly when the second is
    below the first. *)
Lemma SFsub_sign (x y : spec_float) :
  valid_binary x = true -> valid_binary y = true ->
  x <> S754_nan -> y <> S754_nan ->
  SFltb (S754_zero false) (SF64sub x y) = SFltb y x.
Proof.
  intros Vx Vy Nx Ny.
  destruct x as [sx|sx| |sx mx ex], y as [sy|sy| |sy my ey];
    try congruence;
    try (destruct sx; try destruct sy; reflexivity);
    try (destruct sy; reflexivity).
  unfold SF64sub, SFsub.
  pose proof (@valid_canonical sx mx ex Vx) as Cx.
  pose proof (@valid_canonical sy my ey Vy) as Cy.
  pose proof (@magnitude_compare mx my ex ey Cx Cy) as Hc.
  destruct (@canonical_bounds mx ex Cx) as (Hex & _).
  destruct (@canonical_bounds my ey Cy) as (Hey & _).
  rewrite binary_normalize_sign by lia.
  set (A := Zpos (fst (shl_align mx ex (Z.min ex ey)))) in *.
  set (B := Zpos (fst (shl_align my ey (Z.min ex ey)))) in *.
  assert (HA : 0 < A) by (unfold A; lia).
  assert (HB : 0 < B) by (unfold B; lia).
  unfold SFltb, SFcompare.
  rewrite (Z.compare_antisym ex ey), (Pos.compare_cont_spec my mx),
    (Pos.compare_antisym mx my).
  destruct (Z.compare_spec A B) as [HAB|HAB|HAB];
    destruct sx, sy; cbn [cond_Zopp];
    destruct (ex ?= ey); cbn [CompOpp Pos.switch_Eq];
    try destruct (mx ?= my)%positive; cbn [CompOpp Pos.switch_Eq];
    try discriminate Hc;
    match goal with
    | |- (0 <? ?d) = _ => destruct (Z.ltb_spec 0 d)
    end; try reflexivity; lia.
Qed.

End Rounding.

Lemma isNaN_spec (a : float) : Js.isNaN a = false -> Prim2SF a <> S754_nan.
Proof.
  intros H E. apply isNaN_rank in H as [ra H]. rewrite E in H. discriminate.
Qed.

Lemma float_sub_sign (a b : float) :
  Js.isNaN a = false -> Js.isNaN b = false ->
  (0 <? a - b)%float = (b <? a)%float.
Proof.
  intros Ha Hb. rewrite !ltb_spec, sub_spec.
  change (Prim2SF 0) with (S754_zero false).
  apply SFsub_sign; auto using Prim2SF_valid, isNaN_spec.
Qed.


(** ** NaN *)

Section NotANumber.

Local Open Scope Z_scope.

Lemma shr_fexp_nonneg (m e : Z) (l : location) :
  0 <= m -> 0 <= shr_m (fst (shr_fexp prec emax m e l)).
Proof.
  intros Hm. unfold shr_fexp, shr.
  destruct (fexp (Zdigits2 m + e) - e) as [|n|n];
    cbn [fst]; rewrite ?iter_shr_m; rewrite ?shr_record_of_loc_m;
    try lia.
  apply Z.div_pos; [lia|apply Z.pow_pos_nonneg; lia].
Qed.

Lemma round_nearest_even_nonneg (m : Z) (l : location) :
  0 <= m -> 0 <= round_nearest_even m l.
Proof.
  intros H. unfold round_nearest_even.
  destruct l as [|[| |]]; try lia. destruct (Z.even m); lia.
Qed.

(** Rounding a mantissa that is not negative keeps the sign. *)
Lemma binary_round_aux_sign (s : bool) (m e : Z) (l : location) :
  0 <= m -> has_sign s (binary_round_aux prec emax s m e l).
Proof.
  intros Hm. unfold binary_round_aux.
  pose proof (@shr_fexp_nonneg m e l Hm) as H1.
  destruct (shr_fexp prec emax m e l) as [mrs' e'].
  cbn [fst] in H1.
  pose proof (@round_nearest_even_nonneg _ (loc_of_shr_record mrs') H1) as Hr.
  pose proof (@shr_fexp_nonneg _ e' loc_Exact Hr) as H2.
  destruct (shr_fexp prec emax _ e' loc_Exact) as [mrs'' e''].
  cbn [fst] in H2. unfold has_sign.
  destruct (shr_m mrs'') as [|m''|m'']; try lia; [auto|].
  destruct (e'' <=? emax - prec); eauto.
Qed.

Lemma SFmul_square (x : spec_float) :
  x <> S754_nan -> has_sign false (SF64mul x x).
Proof.
  intros Hx. unfold has_sign.
  destruct x as [s|s| |s m e]; try congruence; cbn [SF64mul SFmul].
  - destruct s; auto.
  - destruct s; auto.
  - unfold SF64mul, SFmul.
    replace (xorb s s) with false by (destruct s; reflexivity).
    apply binary_round_aux_sign. lia.
Qed.

Lemma SFadd_sign (x y : spec_float) :
  has_sign false x -> has_sign false y -> has_sign false (SF64add x y).
Proof.
  unfold has_sign at 1 2.
  intros [->|[->|(mx & ex & ->)]] [->|[->|(my & ey & ->)]];
    unfold has_sign; cbn [SF64add SFadd]; eauto.
  unfold SF64add, SFadd, binary_normalize, cond_Zopp, binary_round.
  cbn [Z.add].
  destruct (shl_align _ _ _) as [mz ez].
  apply binary_round_aux_sign. lia.
Qed.

Lemma SFsqrt_not_nan (x : spec_float) :
  has_sign false x -> SF64sqrt x <> S754_nan.
Proof.
  intros [->|[->|(m & e & ->)]]; try discriminate.
  unfold SF64sqrt, SFsqrt, SFsqrt_core_binary.
  set (m' := match e - 2 * _ with Z0 => _ | Zpos _ => _ | Zneg _ => _ end).
  assert (Hm' : 0 <= m').
  { unfold m'. destruct (e - 2 * _); try lia. apply Z.shiftl_nonneg. lia. }
  pose proof (Z.sqrtrem_spec m' Hm') as Hs.
  destruct (Z.sqrtrem m') as [q r].
  assert (Hq : 0 <= q) by nia.
  destruct (@binary_round_aux_sign false q
              (Z.min (fexp (Z.div2 (Zdigits2 (Zpos m) + e + 1))) (Z.div2 e))
              (if r =? 0 then loc_Exact
               else loc_Inexact (if r <=? q then Lt else Gt)) Hq)
    as [E|[E|(m1 & e1 & E)]]; rewrite E; discriminate.
Qed.

End NotANumber.

Lemma isNaN_true (a : float) : Js.isNaN a = true <-> Prim2SF a = S754_nan.
Proof.
  split.
  - intros H. destruct (Prim2SF a) eqn:E; try reflexivity;
      assert (Js.isNaN a = false)
        by (apply isNaN_rank; rewrite E; destruct s; cbn; eauto);
      congruence.
  - intros E. destruct (Js.isNaN a) eqn:H; [reflexivity|].
    apply isNaN_rank in H as [ra H]. rewrite E in H. discriminate.
Qed.

Lemma nan_mul_l (a b : float) : Js.isNaN a = true -> Js.isNaN (a * b) = true.
Proof. rewrite !isNaN_true, mul_spec. intros ->. reflexivity. Qed.

Lemma nan_mul_r (a b : float) : Js.isNaN b = true -> Js.isNaN (a * b) = true.
Proof.
  rewrite !isNaN_true, mul_spec. intros ->.
  destruct (Prim2SF a); reflexivity.
Qed.

Lemma nan_sub_l (a b : float) : Js.isNaN a = true -> Js.isNaN (a - b) = true.
Proof. rewrite !isNaN_true, sub_spec. intros ->. reflexivity. Qed.

Lemma nan_sub_r (a b : float) : Js.isNaN b = true -> Js.isNaN (a - b) = true.
Proof.
  rewrite !isNaN_true, sub_spec. intros ->.
  destruct (Prim2SF a); reflexivity.
Qed.

Lemma nan_add_l (a b : float) : Js.isNaN a = true -> Js.isNaN (a + b) = true.
Proof. rewrite !isNaN_true, add_spec. intros ->. reflexivity. Qed.

Lemma nan_add_r (a b : float) : Js.isNaN b = true -> Js.isNaN (a + b) = true.
Proof.
  rewrite !isNaN_true, add_spec. intros ->.
  destruct (Prim2SF a); reflexivity.
Qed.

Lemma nan_div_l (a b : float) : Js.isNaN a = true -> Js.isNaN (a / b) = true.
Proof. rewrite !isNaN_true, div_spec. intros ->. reflexivity. Qed.

Lemma nan_abs (a : float) :
  Js.isNaN a = true -> Js.isNaN (PrimFloat.abs a) = true.
Proof. rewrite !isNaN_true, abs_spec. intros ->. reflexivity. Qed.

Lemma nan_ltb (a b : float) : Js.isNaN a = true -> (a <? b)%float = false.
Proof. rewrite isNaN_true, ltb_spec. intros ->. reflexivity. Qed.

(** The length of a chord is NaN only when one of its sides is. *)
Lemma nan_chord (dx dy : float) :
  Js.isNaN (chordLength dx dy) = true ->
  Js.isNaN dx = true \/ Js.isNaN dy = true.
Proof.
  intros H.
  destruct (Js.isNaN dx) eqn:Hx; [auto|].
  destruct (Js.isNaN dy) eqn:Hy; [auto|].
  exfalso. apply isNaN_true in H. unfold chordLength in H.
  rewrite sqrt_spec, add_spec, !mul_spec in H.
  revert H. apply SFsqrt_not_nan.
  apply SFadd_sign; apply SFmul_square; apply isNaN_spec; assumption.
Qed.
(** ** Array reads *)

Lemma len_nonneg (points : list Point) : (0 <= len points)%Z.
Proof. unfold len. lia. Qed.

Lemma elem_first (A : Type) (a : A) (l : list A) : elem (a :: l) 0 = Ok a.
Proof. reflexivity. Qed.

Lemma at_last (A : Type) (l : list A) (d : A) :
  l <> [] -> Js.at_ l (Z.of_nat (length l) - 1) = Some (last l d).
Proof.
  intros Hne. unfold Js.at_.
  destruct l as [|a l]; [congruence|].
  replace (Z.of_nat (length (a :: l)) - 1)%Z with (Z.of_nat (length l))
    by (cbn [length]; lia).
  destruct (Z.ltb_spec (Z.of_nat (length l)) 0) as [H|_]; [lia|].
  rewrite Nat2Z.id.
  clear Hne. revert a. induction l as [|b l IH]; intros a; [reflexivity|].
  cbn [length nth_error]. rewrite IH. reflexivity.
Qed.

Lemma elem_last (A : Type) (l : list A) (d : A) :
  l <> [] -> elem l (Z.of_nat (length l) - 1) = Ok (last l d).
Proof. intros H. unfold elem. rewrite (at_last d H). reflexivity. Qed.

Lemma at_first (A : Type) (l : list A) (d : A) :
  l <> [] -> Js.at_ l 0 = Some (hd d l).
Proof. destruct l; [congruence|reflexivity]. Qed.

Lemma long_nonempty (points : list Point) (n : Z) :
  (0 < n)%Z -> (len points <? n)%Z = false -> points <> [].
Proof.
  intros Hn H. apply Z.ltb_ge in H. unfold len in H.
  destruct points; [cbn in H; lia|discriminate].
Qed.

(** The instance line test reads two elements and throws only on an empty
    array. *)
Lemma isLine_total (points : list Point) :
  points <> [] -> exists b, isLine points = Ok b.
Proof.
  intros Hne. unfold isLine.
  destruct points as [|p l] eqn:E; [congruence|].
  rewrite elem_first. cbn [bind]. rewrite <- E in *.
  unfold len. rewrite (elem_last p Hne). cbn [bind]. eauto.
Qed.

Lemma isLineStatic_total (points : list Point) :
  exists b, isLineStatic points = Ok b.
Proof.
  unfold isLineStatic.
  destruct (len points <? 5)%Z eqn:Hlen; [eauto|].
  assert (Hne : points <> []) by (eapply long_nonempty; [|eassumption]; lia).
  destruct points as [|p l] eqn:E; [congruence|].
  rewrite elem_first. cbn [bind]. rewrite <- E in *.
  unfold len. rewrite (elem_last p Hne). cbn [bind].
  match goal with |- context [if ?c then _ else _] => destruct c end; eauto.
Qed.

(** ** Pass-through *)

(** C2: [chainIn] hands back the event it was given, whatever the event
    and whatever the buffer, the hold state and the stored shape are. *)
Theorem chainIn_passes_event_through
  (s : ShapeRecognition) (event : TDrawEvent) (now : Z) :
  snd (chainIn s event now) = Some event.
Proof. unfold chainIn, copyObj. reflexivity. Qed.

(** ** The minimum-length gates *)

Lemma stamp_length (now : nat -> Z) (vs : list TVector2D) (i : nat) :
  length (stamp now i vs) = length vs.
Proof.
  revert i. induction vs as [|v vs IH]; intros i; cbn; [|rewrite IH];
    reflexivity.
Qed.

(** C3: below ten points nothing is classified: the detector answers
    null, the timer-triggered [recognizeShape] changes no field (the timer
    callback only raises the holding flag), and the console entry point
    answers null whatever module is installed. *)
Theorem short_sequences_are_not_classified
  (s : ShapeRecognition) (candidate : option Detector) (now : nat -> Z)
  (vs : list TVector2D) :
  (len (points s) < 10)%Z ->
  (Z.of_nat (length vs) < 10)%Z ->
  detectShape (points s) = Ok None
  /\ recognizeShape s = Ok s
  /\ holdCallback s = setIsHolding s true
  /\ recognizeShapeFromPoints candidate now vs = Ok None.
Proof.
  intros Hs Hvs. apply Z.ltb_lt in Hs, Hvs.
  unfold holdCallback, detectShape, recognizeShape, recognizeShapeFromPoints.
  cbn [points setIsHolding]. rewrite Hs, Hvs. auto.
Qed.

(** ** Elongated strokes *)

Lemma detectShape_detectWith (points : list Point) :
  detectShape points = detectWith isCircle isRectangle points.
Proof. reflexivity. Qed.

(** C4: when the aspect ratio of the bounding box is above 5 or below 0.2,
    the detector answers line exactly when the line test passes and null
    otherwise; the circle and rectangle tests have no say, whatever they
    would answer. *)
Theorem elongated_is_line_or_null (points : list Point) :
  elongated (aspect points) = true ->
  ((isLine points = Ok true /\ detectShape points = Ok (Some line))
   \/ detectShape points = Ok None)
  /\ (forall circleTest rectangleTest,
         detectWith circleTest rectangleTest points = detectShape points).
Proof.
  intros Hel. split.
  - unfold detectShape.
    destruct (len points <? 10)%Z eqn:Hlen; [now right|].
    cbv zeta. rewrite Hel.
    destruct (@isLine_total points) as [b Hb].
    { eapply long_nonempty; [|eassumption]. lia. }
    rewrite Hb. cbn [bind]. destruct b; [left|right]; auto.
  - intros circleTest rectangleTest. unfold detectWith, detectShape.
    cbv zeta. rewrite Hel. reflexivity.
Qed.

Lemma short_sequences_witness :
  detectShape (points construct) = Ok None
  /\ recognizeShape construct = Ok construct
  /\ holdCallback construct = setIsHolding construct true
  /\ recognizeShapeFromPoints None (fun _ => 0%Z) [] = Ok None.
Proof.
  apply short_sequences_are_not_classified; vm_compute; reflexivity.
Defined.

Lemma elongated_witness :
  elongated (aspect thinStroke) = true
  /\ detectShape thinStroke = Ok (Some line)
  /\ detectWith (fun _ => true) (fun _ => true) thinStroke
     = Ok (Some line).
Proof.
  assert (Hel : elongated (aspect thinStroke) = true)
    by (vm_compute; reflexivity).
  destruct (@elongated_is_line_or_null thinStroke Hel) as [H Hwith].
  assert (Hline : detectShape thinStroke = Ok (Some line)).
  { destruct H as [[_ H]|H]; [exact H|]. vm_compute in H. discriminate H. }
  split; [exact Hel|]. split; [exact Hline|].
  rewrite Hwith. exact Hline.
Defined.

(** ** A failed attempt and the stored shape *)

(** C1 as the specification words it fails: with ten buffered points, no
    adapter and a null answer of the detector, the stored shape is not what
    it was. *)
Lemma stored_shape_not_kept :
  (10 <= len (points afterLine))%Z
  /\ tryExternal afterLine = None
  /\ detectShape (points afterLine) = Ok None
  /\ getRecognizedShape (holdCallback afterLine)
     <> getRecognizedShape afterLine.
Proof.
  repeat split; vm_compute; congruence.
Qed.

(** C1, amended: a failed attempt on at least ten points resets the stored
    shape to null and touches nothing else; only the earlier revision, whose
    [recognizeShape] has no [else] branch, leaves the instance as it was. *)
Theorem failed_attempt_resets_shape (s : ShapeRecognition) :
  (10 <= len (points s))%Z ->
  tryExternal s = None ->
  detectShape (points s) = Ok None ->
  recognizeShape s = Ok (setRecognizedShape s None)
  /\ getRecognizedShape (setRecognizedShape s None) = None
  /\ (Part000.detectShape (points s) = Ok None ->
      Part000.recognizeShape s = Ok s).
Proof.
  intros Hlen Hext Hdet. apply Z.ltb_ge in Hlen.
  unfold recognizeShape, Part000.recognizeShape.
  rewrite Hlen, Hext, Hdet. cbn [bind].
  repeat split. intros H0. rewrite H0. reflexivity.
Qed.

Lemma failed_attempt_witness :
  recognizeShape afterLine = Ok (setRecognizedShape afterLine None)
  /\ getRecognizedShape (setRecognizedShape afterLine None) = None
  /\ Part000.recognizeShape afterLine = Ok afterLine.
Proof.
  destruct (@failed_attempt_resets_shape afterLine) as (H1 & H2 & H3);
    try (vm_compute; congruence).
  split; [exact H1|split; [exact H2|]].
  apply H3. vm_compute. reflexivity.
Defined.

(** ** What a classification attempt leaves alone *)

Lemma sameControl_refl (s : ShapeRecognition) : sameControl s s.
Proof. repeat split. Qed.

Lemma store_control (s : ShapeRecognition) (shape : ShapeType) (p : Params) :
  sameControl s (store s shape p).
Proof. repeat split. Qed.

Lemma tryExternal_control (s s' : ShapeRecognition) :
  tryExternal s = Some s' -> sameControl s s'.
Proof.
  unfold tryExternal. intros H.
  split_match; try discriminate; injection H as <-; apply store_control.
Qed.

Lemma recognizeShape_control (s s' : ShapeRecognition) :
  recognizeShape s = Ok s' -> sameControl s s'.
Proof.
  unfold recognizeShape, bind. intros H.
  split_match; try discriminate; injection H as <-;
    auto using sameControl_refl, store_control, tryExternal_control.
  repeat split.
Qed.

Lemma holdCallback_control (s : ShapeRecognition) :
  points (holdCallback s) = points s
  /\ holdTimeout (holdCallback s) = holdTimeout s
  /\ isHolding (holdCallback s) = true
  /\ externalRecognizer (holdCallback s) = externalRecognizer s.
Proof.
  unfold holdCallback.
  destruct (recognizeShape (setIsHolding s true)) as [s'|e] eqn:E.
  - apply recognizeShape_control in E. destruct E as (? & ? & ? & ?).
    repeat split; assumption.
  - repeat split.
Qed.

(** ** The bounded buffer *)

Lemma lastN_length (A : Type) (n : nat) (l : list A) :
  length (lastN n l) = Nat.min n (length l).
Proof. unfold lastN. rewrite length_skipn. lia. Qed.

Lemma lastN_short (A : Type) (n : nat) (l : list A) :
  length l <= n -> lastN n l = l.
Proof.
  intros H. unfold lastN. replace (length l - n) with 0 by lia. reflexivity.
Qed.

(** Pushing onto the last [c] elements and shifting when over capacity
    yields the last [c] elements of the longer list. *)
Lemma pushShift_lastN (c : nat) (p : Point) (l : list Point) :
  1 <= c ->
  pushShift (Z.of_nat c) p (lastN c l) = lastN c (l ++ [p]).
Proof.
  intros Hc. unfold pushShift, len. cbv zeta.
  rewrite length_app, lastN_length. cbn [length].
  destruct (Z.ltb_spec (Z.of_nat c) (Z.of_nat (Nat.min c (length l) + 1)))
    as [Hgt|Hle].
  - assert (Hl : c <= length l) by lia.
    unfold lastN. rewrite length_app. cbn [length].
    replace (length l + 1 - c) with (1 + (length l - c)) by lia.
    rewrite <- skipn_skipn. rewrite (skipn_app (length l - c)).
    replace (length l - c - length l) with 0 by lia.
    reflexivity.
  - assert (Hl : length l < c) by lia.
    rewrite !lastN_short by (rewrite ?length_app; cbn [length]; lia).
    reflexivity.
Qed.

Lemma step_points (s : ShapeRecognition) (acc : list Point) (i : Input) :
  points s = lastN 200 acc ->
  points (step s i) = lastN 200 (sample acc i).
Proof.
  intros H. destruct i as [event now| |r]; cbn [step sample].
  - destruct event; cbn [chainIn fst copyObj sample]; try assumption;
      try reflexivity.
    change 200%Z with (Z.of_nat 200).
    rewrite <- pushShift_lastN by lia. rewrite <- H.
    cbn [isHolding setPoints]. destruct (isHolding s); reflexivity.
  - destruct (holdTimeout s); [|assumption].
    destruct (holdCallback_control (setHoldTimeout s None)) as (-> & _).
    assumption.
  - assumption.
Qed.

Lemma run_points (trace : list Input) (s : ShapeRecognition)
  (acc : list Point) :
  points s = lastN 200 acc ->
  points (run s trace) = lastN 200 (fold_left sample trace acc).
Proof.
  revert s acc. induction trace as [|i trace IH]; intros s acc H;
    [assumption|].
  cbn [run fold_left]. apply IH. apply step_points. assumption.
Qed.

(** C7: along every sequence of inputs the buffer never holds more than
    200 points; it is made of the last 200 samples of the stroke in
    progress, in arrival order, so that it holds exactly 200 points as soon
    as the stroke has more samples than that. *)
Theorem buffer_keeps_the_most_recent_points (trace : list Input) :
  length (points (run construct trace)) <= 200
  /\ points (run construct trace) = lastN 200 (samples trace)
  /\ (200 < length (samples trace) ->
      length (points (run construct trace)) = 200).
Proof.
  assert (H : points (run construct trace) = lastN 200 (samples trace))
    by (apply run_points; reflexivity).
  rewrite H, lastN_length. repeat split; lia.
Qed.

(** ** One attempt per stroke *)

Lemma holding_step (s : ShapeRecognition) (i : Input) :
  withinStroke i = true ->
  holding s ->
  fires s i = false
  /\ holding (step s i)
  /\ points (step s i) = appendMove (points s) i
  /\ recognizedShape (step s i) = recognizedShape s
  /\ notified (step s i) = notified s.
Proof.
  intros Hi [Hh Ht]. unfold holding, fires.
  destruct i as [event now| |r]; cbn [step appendMove].
  - destruct event; try discriminate Hi;
      cbn [chainIn fst copyObj isHolding setPoints]; rewrite ?Hh;
      cbn [negb points setPoints holdTimeout isHolding recognizedShape
             notified];
      auto 10.
  - rewrite Ht. auto 10.
  - cbn. auto 10.
Qed.

Lemma holding_run (trace : list Input) (s : ShapeRecognition) :
  forallb withinStroke trace = true ->
  holding s ->
  attempts s trace = 0
  /\ holding (run s trace)
  /\ points (run s trace) = fold_left appendMove trace (points s)
  /\ recognizedShape (run s trace) = recognizedShape s
  /\ notified (run s trace) = notified s.
Proof.
  revert s. induction trace as [|i trace IH]; intros s Hall Hs.
  - cbn. auto.
  - cbn [forallb] in Hall. apply andb_prop in Hall as [Hi Hall].
    destruct (@holding_step s i Hi Hs) as (Hf & Hs' & Hp & Hr & Hn).
    destruct (IH (step s i) Hall Hs') as (Ha & Hh & Hp' & Hr' & Hn').
    cbn [attempts run fold_left]. rewrite Hf, Ha.
    change (fold_left step trace (step s i)) with (run (step s i) trace).
    rewrite Hp', Hr', Hn', Hp, Hr, Hn. auto.
Qed.

(** Firing the timer leads to the holding state. *)
Lemma fires_holding (s : ShapeRecognition) (i : Input) :
  fires s i = true -> holding (step s i).
Proof.
  unfold fires. destruct i; try discriminate.
  cbn [step]. destruct (holdTimeout s); [intros _|discriminate].
  destruct (holdCallback_control (setHoldTimeout s None)) as (_ & Ht & Hh & _).
  split; assumption.
Qed.

Lemma attempts_within_stroke (trace : list Input) (s : ShapeRecognition) :
  forallb withinStroke trace = true -> attempts s trace <= 1.
Proof.
  revert s. induction trace as [|i trace IH]; intros s Hall; [cbn; lia|].
  cbn [forallb] in Hall. apply andb_prop in Hall as [Hi Hall].
  cbn [attempts]. destruct (fires s i) eqn:Hf.
  - destruct (@holding_run trace (step s i) Hall (@fires_holding s i Hf))
      as (-> & _).
    lia.
  - specialize (IH (step s i) Hall). lia.
Qed.

(** In every run an instance that holds has no timer pending. *)
Lemma holding_invariant (trace : list Input) (s : ShapeRecognition) :
  (isHolding s = true -> holdTimeout s = None) ->
  isHolding (run s trace) = true -> holdTimeout (run s trace) = None.
Proof.
  revert s. induction trace as [|i trace IH]; intros s Hs; [exact Hs|].
  cbn [run fold_left]. apply IH. clear IH.
  destruct i as [event now| |r]; cbn [step].
  - destruct event; cbn [chainIn fst copyObj isHolding setPoints];
      try discriminate; try assumption.
    destruct (isHolding s) eqn:E;
      cbn [negb isHolding holdTimeout setPoints setHoldTimeout]; intros H;
      [apply Hs; reflexivity|congruence].
  - destruct (holdTimeout s) eqn:Ht; [|intros _; exact Ht].
    destruct (holdCallback_control (setHoldTimeout s None))
      as (_ & -> & _). reflexivity.
  - exact Hs.
Qed.

(** C8: take any run of a new instance and any inputs that follow it
    within the same stroke.  The hold timer fires at most once among them,
    also when they are preceded by the down event that starts the stroke.
    If the instance is holding, the timer never fires again and is not
    rearmed, while every move event still pushes its point, with the shift
    at 200, and the stored shape and the notifications stay as they are. *)
Theorem hold_is_attempted_once
  (before after : list Input) (ex ey : float) (props : TDrawingProps)
  (now : Z) :
  forallb withinStroke after = true ->
  attempts (run construct before) after <= 1
  /\ attempts (run construct before) (Chain (down ex ey props) now :: after)
     <= 1
  /\ (isHolding (run construct before) = true ->
      attempts (run construct before) after = 0
      /\ isHolding (run (run construct before) after) = true
      /\ holdTimeout (run (run construct before) after) = None
      /\ points (run (run construct before) after)
         = fold_left appendMove after (points (run construct before))
      /\ getRecognizedShape (run (run construct before) after)
         = getRecognizedShape (run construct before)
      /\ notified (run (run construct before) after)
         = notified (run construct before)).
Proof.
  intros Hall. split; [|split].
  - apply attempts_within_stroke. assumption.
  - cbn [attempts fires]. apply attempts_within_stroke. assumption.
  - intros Hh.
    assert (Hs : holding (run construct before)).
    { split; [assumption|]. apply holding_invariant; [|assumption].
      reflexivity. }
    destruct (@holding_run after (run construct before) Hall Hs)
      as (Ha & (Hh' & Ht') & Hp & Hr & Hn).
    auto 10.
Qed.

Lemma hold_is_attempted_once_witness :
  attempts (run construct pressAndHold) thenDrag = 0
  /\ holdTimeout (run (run construct pressAndHold) thenDrag) = None
  /\ points (run (run construct pressAndHold) thenDrag)
     = [{| x := 0; y := 0; time := 0 |};
        {| x := 1; y := 1; time := 600 |};
        {| x := 2; y := 2; time := 1200 |}].
Proof.
  destruct (@hold_is_attempted_once pressAndHold thenDrag 0%float 0%float
              someProps 0%Z eq_refl) as (_ & _ & H).
  destruct (H eq_refl) as (Ha & _ & Ht & Hp & _).
  split; [exact Ha|split; [exact Ht|rewrite Hp; reflexivity]].
Defined.

(** ** The instance line test and its static sibling *)

(** C5 on the failing input: ten samples at one place have a chord of
    length 0, and the instance test accepts them as a line all the same,
    so the detector classifies them as a line, and a press held still
    through nine move events ends with a line stored and notified; the
    static test, which has the guard at 15, rejects the same points. *)
Theorem still_pointer_is_a_line :
  chordLength 0 0 = 0%float
  /\ isLine still = Ok true
  /\ detectShape still = Ok (Some line)
  /\ isLineStatic still = Ok false
  /\ points (run construct pressAndStay) = still
  /\ getRecognizedShape (run construct pressAndStay)
     = Some {| type := line;
               bounds := {| x1 := Some 0%float; y1 := Some 0%float;
                            x2 := Some 0%float; y2 := Some 0%float |} |}
  /\ notified (run construct pressAndStay) = [line].
Proof. repeat split; vm_compute; reflexivity. Qed.

(** C9 on the failing input: without an external module the console entry
    point answers null where the instance detector answers line. *)
Theorem console_and_instance_disagree :
  stamp (fun _ => 0%Z) 0 stillVectors = still
  /\ recognizeShapeFromPoints None (fun _ => 0%Z) stillVectors = Ok None
  /\ detectShape (stamp (fun _ => 0%Z) 0 stillVectors) = Ok (Some line).
Proof. repeat split; vm_compute; reflexivity. Qed.

(** The circle and rectangle helpers of the two paths are the same
    functions, so the paths can only part on the line test. *)
Lemma static_helpers_agree :
  isCircleStatic = isCircle /\ isRectangleStatic = isRectangle.
Proof. split; reflexivity. Qed.

(** Where the two line tests agree, so do the two classifiers. *)
Lemma console_agrees_when_line_tests_do
  (now : nat -> Z) (vs : list TVector2D) :
  (10 <= Z.of_nat (length vs))%Z ->
  isLineStatic (stamp now 0 vs) = isLine (stamp now 0 vs) ->
  recognizeShapeFromPoints None now vs = detectShape (stamp now 0 vs).
Proof.
  intros Hlen Hline. unfold recognizeShapeFromPoints, detectShape, len.
  rewrite stamp_length. apply Z.ltb_ge in Hlen. rewrite Hlen.
  cbv zeta. rewrite Hline. reflexivity.
Qed.

(** The line tests agree on five points or more whose chord is not
    shorter than 15. *)
Lemma line_tests_agree_on_long_chords (points : list Point) (d : Point) :
  (5 <= len points)%Z ->
  (chordLength (x (last points d) - x (hd d points))
     (y (last points d) - y (hd d points)) <? 15)%float = false ->
  isLineStatic points = isLine points.
Proof.
  intros Hlen Hchord. unfold isLineStatic, isLine.
  apply Z.ltb_ge in Hlen. rewrite Hlen.
  assert (Hne : points <> []) by (eapply long_nonempty; [|eassumption]; lia).
  destruct points as [|p l] eqn:E; [congruence|].
  rewrite elem_first. cbn [bind]. rewrite <- E in *.
  unfold len. rewrite (elem_last d Hne). cbn [bind].
  replace p with (hd d points) by (rewrite E; reflexivity).
  rewrite Hchord. reflexivity.
Qed.

(** ** Parameter extraction cannot fail on the built-in path *)

Lemma insert_length (cmp : float -> float -> float) (a : float)
  (l : list float) :
  length (Js.insert cmp a l) = S (length l).
Proof.
  induction l as [|b l IH]; [reflexivity|].
  cbn [Js.insert]. destruct (0 <? cmp a b)%float; cbn [length]; congruence.
Qed.

Lemma sort_length (cmp : float -> float -> float) (l : list float) :
  length (Js.sort cmp l) = length l.
Proof.
  induction l as [|a l IH]; [reflexivity|].
  cbn [Js.sort fold_right]. rewrite insert_length. cbn [length].
  unfold Js.sort in IH. congruence.
Qed.

Lemma sort_nonempty (cmp : float -> float -> float) (l : list float) :
  l <> [] -> Js.sort cmp l <> [].
Proof.
  intros H E. apply (f_equal (@length float)) in E.
  rewrite sort_length in E. destruct l; [congruence|discriminate].
Qed.

(** The throw of the last statement is reached by the other tags only. *)
Lemma unknown_shape_type (tag : string) (points : list Point) :
  getShapeParams tag points = Throw UnknownShapeType ->
  ~ In tag ["circle"; "rectangle"; "line"]%string.
Proof.
  unfold getShapeParams. intros H [<-|[<-|[<-|[]]]]; cbn in H.
  - destruct (fold_left _ points _); discriminate.
  - discriminate.
  - unfold bind, elem in H. split_match; congruence.
Qed.


Lemma getShapeParams_defined (shape : ShapeType) (points : list Point) :
  points <> [] ->
  exists a b c d,
    getShapeParams (typeName shape) points
    = Ok {| x1 := Some a; y1 := Some b; x2 := Some c; y2 := Some d |}.
Proof.
  intros Hne. destruct shape; unfold getShapeParams; cbn [typeName].
  - change ("circle" =? "line")%string with false.
    change ("circle" =? "rectangle")%string with false.
    change ("circle" =? "circle")%string with true.
    cbv iota. destruct (fold_left _ points _). eauto.
  - change ("rectangle" =? "line")%string with false.
    change ("rectangle" =? "rectangle")%string with true.
    cbv iota zeta.
    set (cmp := fun a b : float => (a - b)%float).
    assert (Hx : Js.sort cmp (map x points) <> []).
    { apply sort_nonempty. destruct points; [congruence|discriminate]. }
    assert (Hy : Js.sort cmp (map y points) <> []).
    { apply sort_nonempty. destruct points; [congruence|discriminate]. }
    rewrite (at_first 0%float Hx), (at_first 0%float Hy).
    rewrite (at_last 0%float Hx), (at_last 0%float Hy). eauto.
  - change ("line" =? "line")%string with true. cbv iota.
    destruct points as [|p l] eqn:E; [congruence|].
    rewrite elem_first. cbn [bind]. rewrite <- E in *.
    unfold len. rewrite (elem_last p Hne). cbn [bind]. eauto.
Qed.

(** C10: on the built-in path [getShapeParams] is called after the test
    at ten points with the non-null answer of the detector; the tag is then
    one of the three known ones, the array is not empty, the call returns
    four defined numbers instead of throwing, and [recognizeShape] stores
    them. *)
Theorem builtin_extraction_is_safe
  (s : ShapeRecognition) (shape : ShapeType) :
  (10 <= len (points s))%Z ->
  detectShape (points s) = Ok (Some shape) ->
  In (typeName shape) ["circle"; "rectangle"; "line"]%string
  /\ 0 < length (points s)
  /\ (exists a b c d,
         getShapeParams (typeName shape) (points s)
         = Ok {| x1 := Some a; y1 := Some b; x2 := Some c; y2 := Some d |}
         /\ (tryExternal s = None ->
             recognizeShape s
             = Ok (store s shape
                     {| x1 := Some a; y1 := Some b;
                        x2 := Some c; y2 := Some d |}))).
Proof.
  intros Hlen Hdet.
  assert (Hne : points s <> []).
  { unfold len in Hlen. destruct (points s); [cbn in Hlen; lia|discriminate]. }
  split; [destruct shape; cbn; auto|].
  split; [destruct (points s); [congruence|cbn; lia]|].
  destruct (@getShapeParams_defined shape (points s) Hne)
    as (a & b & c & d & Hp).
  exists a, b, c, d. split; [exact Hp|].
  intros Hext. unfold recognizeShape.
  apply Z.ltb_ge in Hlen. rewrite Hlen, Hext, Hdet. cbn [bind].
  rewrite Hp. reflexivity.
Qed.


Lemma builtin_extraction_witness :
  getShapeParams (typeName line) (points heldThinStroke)
  = Ok {| x1 := Some 0%float; y1 := Some 0%float;
          x2 := Some 200%float; y2 := Some 2%float |}
  /\ In (typeName line) ["circle"; "rectangle"; "line"]%string.
Proof.
  destruct (@builtin_extraction_is_safe heldThinStroke line) as (Hin & _).
  - vm_compute. discriminate.
  - vm_compute. reflexivity.
  - split; [vm_compute; reflexivity|exact Hin].
Defined.


(** ** Sorting numbers by their difference *)

Lemma insert_In (cmp : float -> float -> float) (v a : float)
  (l : list float) :
  In v (Js.insert cmp a l) <-> v = a \/ In v l.
Proof.
  induction l as [|b l IH]; cbn [Js.insert].
  - cbn. intuition congruence.
  - destruct (0 <? cmp a b)%float; cbn [In] in *; rewrite ?IH;
      intuition congruence.
Qed.

Lemma sort_In (cmp : float -> float -> float) (v : float) (l : list float) :
  In v (Js.sort cmp l) <-> In v l.
Proof.
  induction l as [|a l IH]; [reflexivity|].
  cbn [Js.sort fold_right In]. rewrite insert_In.
  unfold Js.sort in IH. rewrite IH. intuition congruence.
Qed.

Lemma numbers_sort (l : list float) :
  numbers l -> numbers (Js.sort ascending l).
Proof.
  unfold numbers. rewrite !Forall_forall. intros H v Hv.
  apply H. apply sort_In in Hv. exact Hv.
Qed.

Lemma insert_sorted (a : float) (l : list float) :
  Js.isNaN a = false -> numbers l ->
  StronglySorted fle l -> StronglySorted fle (Js.insert ascending a l).
Proof.
  intros Ha Hl Hs. induction Hs as [|b l Hs IH Hb]; cbn [Js.insert].
  - constructor; constructor.
  - apply Forall_cons_iff in Hl as [Hnb Hl].
    unfold ascending at 1. rewrite float_sub_sign by assumption.
    destruct (b <? a)%float eqn:Hlt.
    + constructor; [apply IH; assumption|].
      apply Forall_forall. intros v Hv. apply insert_In in Hv as [->|Hv].
      * apply float_ltb_leb. exact Hlt.
      * rewrite Forall_forall in Hb. apply Hb. exact Hv.
    + assert (Hab : fle a b) by (apply float_ltb_false_leb; assumption).
      constructor; [constructor; assumption|].
      constructor; [exact Hab|].
      apply Forall_forall. intros v Hv. rewrite Forall_forall in Hb.
      apply float_leb_trans with b; [exact Hab|apply Hb; exact Hv].
Qed.

Lemma sort_sorted (l : list float) :
  numbers l -> StronglySorted fle (Js.sort ascending l).
Proof.
  induction l as [|a l IH]; intros Hl; [constructor|].
  apply Forall_cons_iff in Hl as [Ha Hl].
  cbn [Js.sort fold_right]. apply insert_sorted; try assumption.
  - apply numbers_sort. exact Hl.
  - apply IH. exact Hl.
Qed.

Lemma sorted_first_is_least (m : float) (l : list float) :
  Js.isNaN m = false -> StronglySorted fle (m :: l) ->
  forall v, In v (m :: l) -> fle m v.
Proof.
  intros Hm Hs v [<-|Hv]; [apply float_leb_refl; exact Hm|].
  apply StronglySorted_inv in Hs as [_ Hall].
  rewrite Forall_forall in Hall. apply Hall. exact Hv.
Qed.

Lemma sorted_last_is_greatest (l : list float) (d : float) :
  numbers l -> StronglySorted fle l ->
  forall v, In v l -> fle v (last l d).
Proof.
  intros Hn Hs. induction Hs as [|a l Hs IH Ha]; intros v Hv; [destruct Hv|].
  apply Forall_cons_iff in Hn as [Hna Hn].
  destruct l as [|b l].
  - destruct Hv as [<-|[]]. apply float_leb_refl. exact Hna.
  - change (last (a :: b :: l) d) with (last (b :: l) d).
    destruct Hv as [<-|Hv]; [|apply IH; assumption].
    rewrite Forall_forall in Ha. apply Ha.
    destruct (@exists_last _ (b :: l)) as (l' & z & E); [discriminate|].
    rewrite E, last_last. apply in_or_app. right. left. reflexivity.
Qed.

(** The two ends of the sorted array are a least and a greatest element. *)
Lemma sorted_extremes (l : list float) :
  l <> [] -> numbers l ->
  exists lo hi,
    Js.at_ (Js.sort ascending l) 0 = Some lo
    /\ Js.at_ (Js.sort ascending l)
         (Z.of_nat (length (Js.sort ascending l)) - 1) = Some hi
    /\ isMinimumOf lo l /\ isMaximumOf hi l.
Proof.
  intros Hne Hn.
  pose proof (sort_sorted Hn) as Hs.
  pose proof (numbers_sort Hn) as Hns.
  pose proof (@sort_nonempty ascending l Hne) as Hsne.
  destruct (Js.sort ascending l) as [|m rest] eqn:E; [congruence|].
  exists m, (last (m :: rest) 0%float).
  split; [reflexivity|].
  split; [apply at_last; discriminate|].
  assert (Hin : forall v, In v (m :: rest) <-> In v l)
    by (intros v; rewrite <- E; apply sort_In).
  split; split.
  - apply Hin. left. reflexivity.
  - intros v Hv. apply (@sorted_first_is_least m rest).
    + apply Forall_cons_iff in Hns. tauto.
    + exact Hs.
    + apply Hin. exact Hv.
  - apply Hin.
    destruct (@exists_last _ (m :: rest)) as (l' & z & E'); [discriminate|].
    rewrite E', last_last. apply in_or_app. right. left. reflexivity.
  - intros v Hv. apply sorted_last_is_greatest; try assumption.
    apply Hin. exact Hv.
Qed.

(** ** What parameter extraction returns *)

Lemma sums_fold (points : list Point) (a b : float) :
  fold_left
    (fun '(sumX, sumY) p => ((sumX + x p)%float, (sumY + y p)%float))
    points (a, b)
  = (fold_left (fun acc p => (acc + x p)%float) points a,
     fold_left (fun acc p => (acc + y p)%float) points b).
Proof.
  revert a b. induction points as [|p l IH]; intros a b; [reflexivity|].
  cbn [fold_left]. apply IH.
Qed.

Lemma numbers_of_points (points : list Point) :
  forallb hasNumbers points = true ->
  numbers (map x points) /\ numbers (map y points).
Proof.
  unfold numbers. rewrite forallb_forall, !Forall_forall.
  intros H. split; intros v Hv; apply in_map_iff in Hv as (p & <- & Hp);
    specialize (H p Hp); unfold hasNumbers in H;
    apply andb_prop in H as [Hx Hy]; apply negb_true_iff; assumption.
Qed.

Lemma last_after_first (A : Type) (a : A) (l : list A) :
  last (a :: l) a = last l a.
Proof. destruct l; reflexivity. Qed.

(** C6: for a sequence that starts with [first], a line gets the first
    and the last point as its two ends; a rectangle gets, when no
    coordinate is NaN, a least and a greatest x and y among all points;
    a circle gets the centroid minus and plus the mean distance to it. *)
Theorem getShapeParams_extracts (first : Point) (rest : list Point) :
  getShapeParams "line" (first :: rest)
  = Ok {| x1 := Some (x first); y1 := Some (y first);
          x2 := Some (x (last rest first));
          y2 := Some (y (last rest first)) |}
  /\ (forallb hasNumbers (first :: rest) = true ->
      exists left top right bottom,
        getShapeParams "rectangle" (first :: rest)
        = Ok {| x1 := Some left; y1 := Some top;
                x2 := Some right; y2 := Some bottom |}
        /\ isMinimumOf left (map x (first :: rest))
        /\ isMinimumOf top (map y (first :: rest))
        /\ isMaximumOf right (map x (first :: rest))
        /\ isMaximumOf bottom (map y (first :: rest)))
  /\ getShapeParams "circle" (first :: rest)
     = Ok {| x1 := Some (centerX (first :: rest)
                         - avgRadius (first :: rest))%float;
             y1 := Some (centerY (first :: rest)
                         - avgRadius (first :: rest))%float;
             x2 := Some (centerX (first :: rest)
                         + avgRadius (first :: rest))%float;
             y2 := Some (centerY (first :: rest)
                         + avgRadius (first :: rest))%float |}.
Proof.
  split; [|split].
  - unfold getShapeParams.
    change ("line" =? "line")%string with true. cbv iota.
    rewrite elem_first. cbn [bind].
    unfold len. rewrite (@elem_last _ (first :: rest) first) by discriminate.
    cbn [bind]. rewrite last_after_first. reflexivity.
  - intros Hnum. apply numbers_of_points in Hnum as [Hx Hy].
    destruct (@sorted_extremes (map x (first :: rest)))
      as (left & right & Hl & Hr & Hmin & Hmax); [discriminate|exact Hx|].
    destruct (@sorted_extremes (map y (first :: rest)))
      as (top & bottom & Ht & Hb & Hmin' & Hmax'); [discriminate|exact Hy|].
    exists left, top, right, bottom.
    split; [|tauto].
    unfold getShapeParams.
    change ("rectangle" =? "line")%string with false.
    change ("rectangle" =? "rectangle")%string with true.
    cbv iota zeta.
    change (fun a b : float => (a - b)%float) with ascending.
    rewrite Hl, Hr, Ht, Hb. reflexivity.
  - unfold getShapeParams.
    change ("circle" =? "line")%string with false.
    change ("circle" =? "rectangle")%string with false.
    change ("circle" =? "circle")%string with true.
    cbv iota. rewrite sums_fold. reflexivity.
Qed.

Lemma getShapeParams_extracts_witness :
  forallb hasNumbers scribble = true
  /\ getShapeParams "line" scribble
     = Ok {| x1 := Some 0%float; y1 := Some 0%float;
             x2 := Some 100%float; y2 := Some 0%float |}
  /\ getShapeParams "rectangle" scribble
     = Ok {| x1 := Some 0%float; y1 := Some 0%float;
             x2 := Some 100%float; y2 := Some 50%float |}
  /\ isMinimumOf 0%float (map x scribble)
  /\ isMaximumOf 50%float (map y scribble).
Proof.
  destruct (@getShapeParams_extracts (pt 0 0)
              (repeat (pt 50 50) 8 ++ [pt 100 0])) as (Hline & Hrect & _).
  assert (Hn : forallb hasNumbers scribble = true) by reflexivity.
  destruct (Hrect Hn) as (l & t & r & b & E & Hl & _ & _ & Hb).
  assert (E' : getShapeParams "rectangle" scribble
               = Ok {| x1 := Some 0%float; y1 := Some 0%float;
                       x2 := Some 100%float; y2 := Some 50%float |})
    by (vm_compute; reflexivity).
  change (pt 0 0 :: repeat (pt 50 50) 8 ++ [pt 100 0]) with scribble in *.
  rewrite E' in E. injection E as <- <- <- <-.
  repeat split; try assumption; try (vm_compute; reflexivity);
    try apply Hl; try apply Hb.
Defined.

(** ** The buffer of the earlier revision *)

Lemma earlier_recognizeShape_control (s s' : ShapeRecognition) :
  Part000.recognizeShape s = Ok s' -> sameControl s s'.
Proof.
  unfold Part000.recognizeShape, bind. intros H.
  split_match; try discriminate; injection H as <-;
    auto using sameControl_refl, store_control.
Qed.

Lemma earlier_holdCallback_points (s : ShapeRecognition) :
  points (Part000.holdCallback s) = points s.
Proof.
  unfold Part000.holdCallback.
  destruct (Part000.recognizeShape (setIsHolding s true)) as [s'|e] eqn:E;
    [|reflexivity].
  apply earlier_recognizeShape_control in E. destruct E as (E & _).
  exact E.
Qed.

Lemma earlier_step_points (s : ShapeRecognition) (acc : list Point)
  (i : Input) :
  points s = lastN 100 acc ->
  points (Part000.step s i) = lastN 100 (sample acc i).
Proof.
  intros H. destruct i as [event now| |r]; cbn [Part000.step sample].
  - destruct event; cbn [Part000.chainIn fst copyObj sample];
      try assumption; try reflexivity.
    change 100%Z with (Z.of_nat 100).
    rewrite <- pushShift_lastN by lia. rewrite <- H.
    cbn [isHolding setPoints]. destruct (isHolding s); reflexivity.
  - destruct (holdTimeout s); [|assumption].
    rewrite earlier_holdCallback_points. assumption.
  - assumption.
Qed.

(** X1: in the earlier revision the buffer holds the samples of the
    current stroke, the most recent 100 of them at most, in the order they
    came in. *)
Lemma earlier_buffer_keeps_the_most_recent_points (trace : list Input) :
  points (Part000.run construct trace) = lastN 100 (samples trace)
  /\ length (points (Part000.run construct trace)) <= 100.
Proof.
  assert (H : forall s acc,
             points s = lastN 100 acc ->
             points (Part000.run s trace)
             = lastN 100 (fold_left sample trace acc)).
  { induction trace as [|i trace IH]; intros s acc H; [assumption|].
    cbn [Part000.run fold_left]. apply IH. apply earlier_step_points.
    assumption. }
  specialize (H construct [] eq_refl). unfold samples.
  rewrite H, lastN_length. split; [reflexivity|lia].
Qed.

(** ** The static line test *)

Lemma nan_deviation (start p : Point) (dx dy length : float) :
  Js.isNaN dx = true \/ Js.isNaN dy = true ->
  Js.isNaN (deviation start dx dy length p) = true.
Proof.
  intros H. unfold deviation. apply nan_div_l, nan_abs.
  destruct H as [H|H].
  - apply nan_sub_r, nan_mul_l, H.
  - apply nan_sub_l, nan_mul_l, H.
Qed.

Lemma nan_sum (A : Type) (f : A -> float) (l : list A) (total : float) :
  Js.isNaN total = true ->
  Js.isNaN (fold_left (fun total i => (total + f i)%float) l total) = true.
Proof.
  revert total. induction l as [|i l IH]; intros total H; [exact H|].
  cbn [fold_left]. apply IH, nan_add_l, H.
Qed.

Lemma nan_avgDeviation (points : list Point) (start : Point)
  (dx dy length : float) :
  3 <= List.length points ->
  Js.isNaN dx = true \/ Js.isNaN dy = true ->
  Js.isNaN (avgDeviation points start dx dy length) = true.
Proof.
  intros Hlen H. unfold avgDeviation, totalDeviation, interior.
  apply nan_div_l.
  destruct (List.length points - 2) as [|n] eqn:E; [lia|].
  cbn [seq fold_left].
  apply (@nan_sum nat
           (fun i => deviation start dx dy length (nth i points start))).
  apply nan_add_r, nan_deviation, H.
Qed.

(** X2: the static line test accepts only from five points on, with a
    chord of length at least 15 and a mean deviation below 7. *)
Lemma static_line_test_accepts (first : Point) (rest : list Point) :
  isLineStatic (first :: rest) = Ok true ->
  (5 <= len (first :: rest))%Z
  /\ (15 <=? chordLength (x (last rest first) - x first)
               (y (last rest first) - y first))%float = true
  /\ (avgDeviation (first :: rest) first
        (x (last rest first) - x first) (y (last rest first) - y first)
        (chordLength (x (last rest first) - x first)
           (y (last rest first) - y first)) <? 7)%float = true.
Proof.
  unfold isLineStatic.
  destruct (len (first :: rest) <? 5)%Z eqn:Hlen; [discriminate|].
  apply Z.ltb_ge in Hlen.
  rewrite elem_first. cbn [bind].
  unfold len at 1. rewrite (@elem_last _ (first :: rest) first) by discriminate.
  cbn [bind]. rewrite last_after_first.
  set (dx := (x (last rest first) - x first)%float).
  set (dy := (y (last rest first) - y first)%float).
  destruct (chordLength dx dy <? 15)%float eqn:Hchord; [discriminate|].
  intros [= Havg]. split; [exact Hlen|]. split; [|exact Havg].
  apply float_ltb_false_leb; [|reflexivity|exact Hchord].
  destruct (Js.isNaN (chordLength dx dy)) eqn:Hnan; [|reflexivity].
  apply nan_chord in Hnan.
  apply (@nan_avgDeviation (first :: rest) first dx dy (chordLength dx dy))
    in Hnan; [|unfold len in Hlen; lia].
  apply (@nan_ltb _ 7%float) in Hnan. congruence.
Qed.

(** The console entry point answers line only through the static test,
    hence never for a chord shorter than 15. *)
Lemma console_line_passes_static_test
  (now : nat -> Z) (vs : list TVector2D) :
  recognizeShapeFromPoints None now vs = Ok (Some line) ->
  isLineStatic (stamp now 0 vs) = Ok true.
Proof.
  unfold recognizeShapeFromPoints, bind. intros H.
  split_match; try discriminate; reflexivity.
Qed.

(** The instance test has the deviation as its only criterion. *)
Lemma instance_line_test_accepts (first : Point) (rest : list Point) :
  isLine (first :: rest)
  = Ok (avgDeviation (first :: rest) first
          (x (last rest first) - x first) (y (last rest first) - y first)
          (chordLength (x (last rest first) - x first)
             (y (last rest first) - y first)) <? 7)%float.
Proof.
  unfold isLine. rewrite elem_first. cbn [bind].
  unfold len. rewrite (@elem_last _ (first :: rest) first) by discriminate.
  cbn [bind]. rewrite last_after_first. reflexivity.
Qed.

(** X3: on ten points or more whose chord is not shorter than 15 the
    console entry point, without an external module, and the instance
    detector give the same answer. *)
Lemma console_agrees_on_long_chords
  (now : nat -> Z) (vs : list TVector2D) (d : Point) :
  (10 <= Z.of_nat (length vs))%Z ->
  (chordLength
     (x (last (stamp now 0 vs) d) - x (hd d (stamp now 0 vs)))
     (y (last (stamp now 0 vs) d) - y (hd d (stamp now 0 vs))) <? 15)%float
  = false ->
  recognizeShapeFromPoints None now vs = detectShape (stamp now 0 vs).
Proof.
  intros Hlen Hchord. apply console_agrees_when_line_tests_do; [exact Hlen|].
  apply line_tests_agree_on_long_chords with d; [|exact Hchord].
  unfold len. rewrite stamp_length. lia.
Qed.

(** ** The sample strokes of the specification *)

Example thin_stroke_is_a_line :
  detectShape thinStroke = Ok (Some line)
  /\ getShapeParams (typeName line) thinStroke
     = Ok {| x1 := Some 0%float; y1 := Some 0%float;
             x2 := Some 200%float; y2 := Some 2%float |}.
Proof. split; vm_compute; reflexivity. Qed.

Example ring_is_a_circle :
  detectShape ring = Ok (Some circle)
  /\ getShapeParams (typeName circle) ring
     = Ok {| x1 := Some 50%float; y1 := Some 50%float;
             x2 := Some 150%float; y2 := Some 150%float |}.
Proof. split; vm_compute; reflexivity. Qed.

Example box_is_a_rectangle :
  detectShape box = Ok (Some rectangle)
  /\ getShapeParams (typeName rectangle) box
     = Ok {| x1 := Some 0%float; y1 := Some 0%float;
             x2 := Some 100%float; y2 := Some 60%float |}.
Proof. split; vm_compute; reflexivity. Qed.

(** * Further properties *)

(** ** Witnesses for the line tests *)

Lemma static_line_test_witness :
  (5 <= len (pt 0 0 :: tl thinStroke))%Z
  /\ (15 <=? chordLength (x (last (tl thinStroke) (pt 0 0)) - x (pt 0 0))
               (y (last (tl thinStroke) (pt 0 0)) - y (pt 0 0)))%float
     = true.
Proof.
  destruct (@static_line_test_accepts (pt 0 0) (tl thinStroke))
    as (H1 & H2 & _); [vm_compute; reflexivity|].
  split; [exact H1|exact H2].
Defined.

Lemma console_agrees_witness :
  recognizeShapeFromPoints None (fun _ => 0%Z) thinVectors
  = detectShape (stamp (fun _ => 0%Z) 0 thinVectors).
Proof.
  apply (@console_agrees_on_long_chords (fun _ => 0%Z) thinVectors (pt 0 0));
    vm_compute; congruence.
Defined.

(** ** When parameter extraction throws *)

(** X4: parameter extraction throws in two cases only: for a line on an
    empty array of points (reading [x] of undefined, a TypeError), and for
    a type that is none of the three shapes (Unknown shape type). *)
Theorem getShapeParams_throws
  (tag : string) (points : list Point) (e : Error) :
  getShapeParams tag points = Throw e <->
  (tag = "line"%string /\ points = [] /\ e = TypeError)
  \/ (tag <> "line"%string /\ tag <> "rectangle"%string
      /\ tag <> "circle"%string /\ e = UnknownShapeType).
Proof.
  unfold getShapeParams.
  destruct (String.eqb_spec tag "line") as [->|Hl].
  - destruct points as [|p l].
    + cbn. split.
      * intros [= <-]. left. auto.
      * intros [(_ & _ & ->)|(H & _)]; congruence.
    + rewrite elem_first. cbn [bind].
      unfold len. rewrite (@elem_last _ (p :: l) p) by discriminate.
      cbn [bind]. split; [discriminate|].
      intros [(_ & H & _)|(H & _)]; congruence.
  - destruct (String.eqb_spec tag "rectangle") as [->|Hr].
    + split; [discriminate|]. intros [(H & _)|(_ & H & _)]; congruence.
    + destruct (String.eqb_spec tag "circle") as [->|Hc].
      * destruct (fold_left _ points _). split; [discriminate|].
        intros [(H & _)|(_ & _ & H & _)]; congruence.
      * split.
        -- intros [= <-]. right. auto.
        -- intros [(H & _)|(_ & _ & _ & ->)]; congruence.
Qed.

(** ** Nothing rejects *)


(** ** The hold timer along a run *)

Lemma pushShift_ends (capacity : Z) (p : Point) (pts : list Point) :
  (1 <= capacity)%Z ->
  exists front, pushShift capacity p pts = front ++ [p].
Proof.
  intros Hc. unfold pushShift. cbv zeta.
  destruct (Z.ltb_spec capacity (len (pts ++ [p]))) as [H|H]; [|eauto].
  destruct pts as [|q pts]; [cbn in H; lia|].
  exists pts. reflexivity.
Qed.

Lemma timerInvariant_step (s : ShapeRecognition) (i : Input) :
  timerInvariant s -> timerInvariant (step s i).
Proof.
  intros [Hh Hd]. destruct i as [event now| |r]; cbn [step].
  - destruct event; cbn [chainIn fst copyObj].
    + split; [discriminate|]. cbn. intros due [= <-].
      exists [], {| x := ex; y := ey; time := now |}. auto.
    + cbn [isHolding setPoints].
      destruct (isHolding s) eqn:E; cbn [negb].
      * split; cbn; [intros _; auto|].
        intros due Hdue. rewrite (Hh eq_refl) in Hdue. discriminate.
      * split; cbn; [congruence|]. intros due [= <-].
        destruct (@pushShift_ends 200 {| x := ex; y := ey; time := now |}
                    (points s)) as [front ->]; [lia|].
        eauto.
    + split; cbn; [reflexivity|discriminate].
    + split; assumption.
  - destruct (holdTimeout s) eqn:Ht;
      [|split; [intros _; exact Ht|intros due; rewrite Ht; discriminate]].
    destruct (holdCallback_control (setHoldTimeout s None))
      as (_ & Ht' & _).
    split; [intros _; exact Ht'|].
    intros due Hdue. rewrite Ht' in Hdue. discriminate.
  - split; assumption.
Qed.

(** X6: in every run of a new instance no timer is pending while the
    instance holds, and a pending timer is due 500 ms after the time of
    the last sample in the buffer, which is then not empty. *)
Theorem timer_follows_the_last_sample (trace : list Input) :
  timerInvariant (run construct trace).
Proof.
  assert (H : forall s, timerInvariant s -> timerInvariant (run s trace)).
  { induction trace as [|i trace IH]; intros s Hs; [exact Hs|].
    cbn [run fold_left]. apply IH, timerInvariant_step, Hs. }
  apply H. split; [discriminate|]. intros due. discriminate.
Qed.

(** ** Notifications and the stored shape *)

Lemma recognizeShape_outcome (s s' : ShapeRecognition) :
  recognizeShape s = Ok s' ->
  s' = s \/ s' = setRecognizedShape s None
  \/ exists shape params, s' = store s shape params.
Proof.
  unfold recognizeShape, tryExternal, bind. intros H.
  split_match; try discriminate; injection H as <-;
    repeat match goal with
      | E : Some _ = Some _ |- _ => injection E as <-
      end; eauto 8.
Qed.

Lemma earlier_recognizeShape_outcome (s s' : ShapeRecognition) :
  Part000.recognizeShape s = Ok s' ->
  s' = s \/ exists shape params, s' = store s shape params.
Proof.
  unfold Part000.recognizeShape, bind. intros H.
  split_match; try discriminate; injection H as <-; eauto 8.
Qed.

Lemma chainIn_keeps_results (s : ShapeRecognition) (event : TDrawEvent)
  (now : Z) :
  notified (fst (chainIn s event now)) = notified s
  /\ recognizedShape (fst (chainIn s event now)) = recognizedShape s
  /\ onShapeRecognized (fst (chainIn s event now)) = onShapeRecognized s.
Proof.
  destruct event; cbn [chainIn fst copyObj]; auto.
  cbn [isHolding setPoints]. destruct (isHolding s); auto.
Qed.



Lemma storedIsLastNotified_step (s : ShapeRecognition) (i : Input) :
  storedIsLastNotified s -> storedIsLastNotified (step s i).
Proof.
  intros [Hc Hr]. destruct i as [event now| |r]; cbn [step].
  - destruct (chainIn_keeps_results s event now) as (Hn & Hs & Ho).
    split; [congruence|]. intros r. rewrite Hs, Hn. apply Hr.
  - destruct (holdTimeout s); [|split; assumption].
    unfold holdCallback.
    destruct (recognizeShape (setIsHolding (setHoldTimeout s None) true))
      as [s'|e] eqn:E; [|split; assumption].
    apply recognizeShape_outcome in E
      as [->|[->|(shape & params & ->)]].
    + split; assumption.
    + split; [assumption|]. cbn. discriminate.
    + split; [assumption|]. cbn. rewrite Hc. intros r [= <-].
      exists (notified s). reflexivity.
  - split; assumption.
Qed.

(** X8: in every run of a new instance, whenever a shape is stored, the
    callback was last called with the type of that very shape. *)
Theorem stored_shape_is_last_notified (trace : list Input) :
  storedIsLastNotified (run construct trace).
Proof.
  assert (H : forall s,
             storedIsLastNotified s -> storedIsLastNotified (run s trace)).
  { induction trace as [|i trace IH]; intros s Hs; [exact Hs|].
    cbn [run fold_left]. apply IH, storedIsLastNotified_step, Hs. }
  apply H. split; [reflexivity|]. intros r. discriminate.
Qed.

(** ** The earlier revision never forgets a shape *)

Lemma earlier_step_keeps_shape (s : ShapeRecognition) (i : Input) :
  recognizedShape s <> None -> recognizedShape (Part000.step s i) <> None.
Proof.
  intros H. destruct i as [event now| |r]; cbn [Part000.step];
    [|destruct (holdTimeout s); [|exact H]|exact H].
  - destruct event; cbn [Part000.chainIn fst copyObj]; try exact H.
    cbn [isHolding setPoints]. destruct (isHolding s); exact H.
  - unfold Part000.holdCallback.
    destruct (Part000.recognizeShape _) as [s'|e] eqn:E; [|exact H].
    apply earlier_recognizeShape_outcome in E
      as [->|(shape & params & ->)]; [exact H|discriminate].
Qed.

(** X9: in the earlier revision a stored shape is only ever replaced by
    another one: once [getRecognizedShape] has answered a shape it never
    answers null again, whatever events and timer firings follow. *)
Theorem earlier_revision_keeps_a_shape
  (s : ShapeRecognition) (r : RecognizedShape) (trace : list Input) :
  getRecognizedShape s = Some r ->
  exists r', getRecognizedShape (Part000.run s trace) = Some r'.
Proof.
  intros H.
  assert (Hne : recognizedShape (Part000.run s trace) <> None).
  { assert (Hs : recognizedShape s <> None)
      by (unfold getRecognizedShape in H; congruence).
    clear H. revert s Hs.
    induction trace as [|i trace IH]; intros s Hs; [exact Hs|].
    cbn [Part000.run fold_left]. apply IH, earlier_step_keeps_shape, Hs. }
  unfold getRecognizedShape.
  destruct (recognizedShape (Part000.run s trace)) as [r'|];
    [eauto|congruence].
Qed.

Lemma earlier_revision_keeps_a_shape_witness :
  (exists r',
      getRecognizedShape (Part000.run afterLineArmed [TimerFires]) = Some r')
  /\ getRecognizedShape (run afterLineArmed [TimerFires]) = None.
Proof.
  split; [|vm_compute; reflexivity].
  apply (@earlier_revision_keeps_a_shape afterLineArmed
           {| type := line;
              bounds := {| x1 := Some 0%float; y1 := Some 0%float;
                           x2 := Some 200%float; y2 := Some 2%float |} |}
           [TimerFires]).
  reflexivity.
Defined.

(** ** What each answer of the detector requires *)

(** X10: the answers of the detector in their order of precedence: a
    circle needs twenty points, a bounding box that is neither elongated
    nor far from square, and the circle test; a rectangle needs twelve
    points, the rectangle test and no circle before it; a line needs ten
    points and the line test, after an elongated box or after circle and
    rectangle have both failed. *)
Theorem detector_answers_in_order (points : list Point) (shape : ShapeType) :
  detectShape points = Ok (Some shape) ->
  match shape with
  | circle =>
      (20 <= len points)%Z
      /\ elongated (aspect points) = false
      /\ nearSquare (aspect points) = true
      /\ isCircle points = true
  | rectangle =>
      (12 <= len points)%Z
      /\ elongated (aspect points) = false
      /\ (nearSquare (aspect points) && isCircle points) = false
      /\ isRectangle points = true
  | line =>
      (10 <= len points)%Z
      /\ isLine points = Ok true
      /\ (elongated (aspect points) = true
          \/ ((nearSquare (aspect points) && isCircle points) = false
              /\ isRectangle points = false))
  end.
Proof.
  unfold detectShape.
  destruct (Z.ltb_spec (len points) 10) as [Hlen|Hlen]; [discriminate|].
  cbv zeta.
  destruct (elongated (aspect points)) eqn:Hel.
  - destruct (isLine points) as [[|]|e] eqn:Hl; cbn [bind];
      intros [= <-]. auto.
  - destruct (nearSquare (aspect points) && isCircle points) eqn:Hc.
    + intros [= <-]. apply andb_prop in Hc as [Hn Hc].
      repeat split; try assumption.
      unfold isCircle in Hc.
      destruct (Z.ltb_spec (len points) 20); [discriminate|assumption].
    + destruct (isRectangle points) eqn:Hr.
      * intros [= <-]. repeat split; try assumption.
        unfold isRectangle in Hr.
        destruct (Z.ltb_spec (len points) 12); [discriminate|assumption].
      * destruct (isLine points) as [[|]|e] eqn:Hl; cbn [bind];
          intros [= <-]. auto.
Qed.

Lemma detector_answers_in_order_witness :
  (20 <= len ring)%Z /\ isCircle ring = true
  /\ (12 <= len box)%Z /\ isRectangle box = true.
Proof.
  destruct (@detector_answers_in_order ring circle) as (H1 & _ & _ & H2);
    [vm_compute; reflexivity|].
  destruct (@detector_answers_in_order box rectangle)
    as (H3 & _ & _ & H4); [vm_compute; reflexivity|].
  auto.
Defined.

(** ** The earlier revision's detector *)

Lemma nan_div_r (a b : float) :
  Js.isNaN b = true -> Js.isNaN (a / b) = true.
Proof.
  rewrite !isNaN_true, div_spec. intros ->.
  destruct (Prim2SF a); reflexivity.
Qed.

Lemma nan_earlierAvgDeviation (points : list Point) (start : Point)
  (dx dy length : float) :
  3 <= List.length points ->
  Js.isNaN length = true ->
  Js.isNaN (earlierAvgDeviation points start dx dy length) = true.
Proof.
  intros Hlen H. unfold earlierAvgDeviation, interior.
  apply nan_div_l.
  destruct (List.length points - 2) as [|n] eqn:E; [lia|].
  cbn [seq fold_left].
  apply (@nan_sum nat
           (fun i =>
              (PrimFloat.abs
                 (dy * (x (nth i points start) - x start)
                  - dx * (y (nth i points start) - y start))
               / length)%float)).
  apply nan_add_r, nan_div_r, H.
Qed.

(** X11: the line test of the earlier revision accepts only from ten points
    on, with a chord of length at least 20 and a mean deviation below 5. *)
Theorem earlier_line_test_accepts (first : Point) (rest : list Point) :
  Part000.isLine (first :: rest) = Ok true ->
  (10 <= len (first :: rest))%Z
  /\ (20 <=? chordLength (x (last rest first) - x first)
               (y (last rest first) - y first))%float = true
  /\ (earlierAvgDeviation (first :: rest) first
        (x (last rest first) - x first) (y (last rest first) - y first)
        (chordLength (x (last rest first) - x first)
           (y (last rest first) - y first)) <? 5)%float = true.
Proof.
  unfold Part000.isLine.
  destruct (len (first :: rest) <? 10)%Z eqn:Hlen; [discriminate|].
  apply Z.ltb_ge in Hlen.
  rewrite elem_first. cbn [bind].
  unfold len at 1. rewrite (@elem_last _ (first :: rest) first) by discriminate.
  cbn [bind]. rewrite last_after_first.
  set (dx := (x (last rest first) - x first)%float).
  set (dy := (y (last rest first) - y first)%float).
  destruct (chordLength dx dy <? 20)%float eqn:Hchord; [discriminate|].
  cbv zeta. fold (earlierAvgDeviation (first :: rest) first dx dy
                    (chordLength dx dy)).
  intros [= Havg]. split; [exact Hlen|]. split; [|exact Havg].
  apply float_ltb_false_leb; [|reflexivity|exact Hchord].
  destruct (Js.isNaN (chordLength dx dy)) eqn:Hnan; [|reflexivity].
  apply (@nan_earlierAvgDeviation (first :: rest) first dx dy) in Hnan;
    [|unfold len in Hlen; lia].
  apply (@nan_ltb _ 5%float) in Hnan. congruence.
Qed.

Lemma earlier_line_test_witness :
  (20 <=? chordLength (x (last (tl thinStroke) (pt 0 0)) - x (pt 0 0))
            (y (last (tl thinStroke) (pt 0 0)) - y (pt 0 0)))%float
  = true.
Proof.
  destruct (@earlier_line_test_accepts (pt 0 0) (tl thinStroke))
    as (_ & H & _); [vm_compute; reflexivity|exact H].
Defined.

Lemma earlier_isLine_total (points : list Point) :
  exists b, Part000.isLine points = Ok b.
Proof.
  unfold Part000.isLine.
  destruct (len points <? 10)%Z eqn:Hlen; [eauto|].
  assert (Hne : points <> []) by (eapply long_nonempty; [|eassumption]; lia).
  destruct points as [|p l] eqn:E; [congruence|].
  rewrite elem_first. cbn [bind]. rewrite <- E in *.
  unfold len. rewrite (elem_last p Hne). cbn [bind].
  match goal with |- context [if ?c then _ else _] => destruct c end; eauto.
Qed.

(** X12: the detector of the earlier revision never throws; it tries
    circle, then rectangle, then line, and both circle and rectangle need
    twenty points, so that from ten to nineteen points its only answers are
    line and null. *)
Theorem earlier_detector_answers_in_order (points : list Point) :
  (exists r, Part000.detectShape points = Ok r)
  /\ (forall shape,
         Part000.detectShape points = Ok (Some shape) ->
         match shape with
         | circle => (20 <= len points)%Z /\ Part000.isCircle points = true
         | rectangle =>
             (20 <= len points)%Z
             /\ Part000.isCircle points = false
             /\ Part000.isRectangle points = true
         | line =>
             (10 <= len points)%Z
             /\ Part000.isCircle points = false
             /\ Part000.isRectangle points = false
             /\ Part000.isLine points = Ok true
         end).
Proof.
  destruct (earlier_isLine_total points) as [b Hb].
  unfold Part000.detectShape. rewrite Hb. cbn [bind]. split.
  - split_match; eauto.
  - intros shape.
    destruct (Z.ltb_spec (len points) 10) as [Hlen|Hlen]; [discriminate|].
    destruct (Part000.isCircle points) eqn:Hc.
    + intros [= <-]. split; [|reflexivity].
      unfold Part000.isCircle in Hc.
      destruct (Z.ltb_spec (len points) 20); [discriminate|assumption].
    + destruct (Part000.isRectangle points) eqn:Hr.
      * intros [= <-]. repeat split.
        unfold Part000.isRectangle in Hr.
        destruct (Z.ltb_spec (len points) 20); [discriminate|assumption].
      * destruct b; intros [= <-]. auto.
Qed.

Lemma earlier_detector_witness :
  (20 <= len box)%Z /\ Part000.isCircle box = true.
Proof.
  destruct (@earlier_detector_answers_in_order box) as [_ H].
  apply (H circle). vm_compute. reflexivity.
Defined.

(** ** Timestamps play no part *)

Lemma map_x_untimed (l : list Point) : map x (map untimed l) = map x l.
Proof. rewrite map_map. reflexivity. Qed.

Lemma map_y_untimed (l : list Point) : map y (map untimed l) = map y l.
Proof. rewrite map_map. reflexivity. Qed.

Lemma fold_untimed (A : Type) (f : A -> Point -> A) (l : list Point) (a : A) :
  (forall a p, f a (untimed p) = f a p) ->
  fold_left f (map untimed l) a = fold_left f l a.
Proof.
  intros Hf. revert a. induction l as [|p l IH]; intros a; [reflexivity|].
  cbn [map fold_left]. rewrite Hf. apply IH.
Qed.

Lemma box_untimed (l : list Point) :
  minX (map untimed l) = minX l /\ maxX (map untimed l) = maxX l
  /\ minY (map untimed l) = minY l /\ maxY (map untimed l) = maxY l
  /\ width (map untimed l) = width l /\ height (map untimed l) = height l
  /\ aspect (map untimed l) = aspect l
  /\ len (map untimed l) = len l.
Proof.
  unfold aspect, width, height, minX, maxX, minY, maxY, len.
  rewrite map_x_untimed, map_y_untimed, length_map. repeat split.
Qed.

Lemma radius_untimed (l : list Point) :
  avgRadius (map untimed l) = avgRadius l
  /\ radiusVariance (map untimed l) = radiusVariance l.
Proof.
  assert (Hx : centerX (map untimed l) = centerX l).
  { unfold centerX, sumX. rewrite length_map, fold_untimed; reflexivity. }
  assert (Hy : centerY (map untimed l) = centerY l).
  { unfold centerY, sumY. rewrite length_map, fold_untimed; reflexivity. }
  assert (Hr : avgRadius (map untimed l) = avgRadius l).
  { unfold avgRadius, sumDist.
    rewrite length_map, Hx, Hy, fold_untimed; reflexivity. }
  split; [exact Hr|].
  unfold radiusVariance.
  rewrite length_map, Hx, Hy, Hr, fold_untimed; reflexivity.
Qed.

Lemma isCircle_untimed (l : list Point) :
  isCircle (map untimed l) = isCircle l.
Proof.
  unfold isCircle.
  destruct (box_untimed l) as (_ & _ & _ & _ & -> & -> & _ & ->).
  destruct (radius_untimed l) as (-> & ->). reflexivity.
Qed.

Lemma isRectangle_untimed (l : list Point) :
  isRectangle (map untimed l) = isRectangle l.
Proof.
  assert (Hm : markCorners (map untimed l) = markCorners l).
  { unfold markCorners, cornerThreshold.
    destruct (box_untimed l) as (-> & -> & -> & -> & -> & -> & _).
    reflexivity. }
  unfold isRectangle, cornerCount. rewrite Hm.
  rewrite fold_untimed by reflexivity.
  destruct (box_untimed l) as (_ & _ & _ & _ & -> & -> & _ & ->).
  reflexivity.
Qed.

Lemma avgDeviation_untimed (l : list Point) (start : Point)
  (dx dy length : float) :
  avgDeviation (map untimed l) (untimed start) dx dy length
  = avgDeviation l start dx dy length.
Proof.
  unfold avgDeviation, totalDeviation, interior. rewrite length_map.
  f_equal. generalize (seq 1 (List.length l - 2)), 0%float.
  intros idx. induction idx as [|i idx IH]; intros acc; [reflexivity|].
  cbn [fold_left]. rewrite IH.
  change (untimed start) with (untimed start) at 1.
  rewrite (map_nth untimed l start i). reflexivity.
Qed.

Lemma last_untimed (l : list Point) (d : Point) :
  last (map untimed l) (untimed d) = untimed (last l d).
Proof.
  induction l as [|p l IH]; [reflexivity|].
  destruct l as [|q l]; [reflexivity|]. exact IH.
Qed.

Lemma static_line_test_unfolded (first : Point) (rest : list Point) :
  isLineStatic (first :: rest)
  = if (len (first :: rest) <? 5)%Z then Ok false
    else if (chordLength (x (last rest first) - x first)
               (y (last rest first) - y first) <? 15)%float then Ok false
    else
      Ok (avgDeviation (first :: rest) first
            (x (last rest first) - x first) (y (last rest first) - y first)
            (chordLength (x (last rest first) - x first)
               (y (last rest first) - y first)) <? 7)%float.
Proof.
  unfold isLineStatic. rewrite elem_first. cbn [bind].
  unfold len at 2. rewrite (@elem_last _ (first :: rest) first) by discriminate.
  cbn [bind]. rewrite last_after_first. reflexivity.
Qed.

Lemma isLine_untimed (l : list Point) :
  isLine (map untimed l) = isLine l.
Proof.
  destruct l as [|p l]; [reflexivity|]. cbn [map].
  rewrite !instance_line_test_accepts, last_untimed.
  change (untimed p :: map untimed l) with (map untimed (p :: l)).
  rewrite avgDeviation_untimed. reflexivity.
Qed.

Lemma isLineStatic_untimed (l : list Point) :
  isLineStatic (map untimed l) = isLineStatic l.
Proof.
  destruct l as [|p l]; [reflexivity|]. cbn [map].
  rewrite !static_line_test_unfolded, last_untimed.
  change (untimed p :: map untimed l) with (map untimed (p :: l)).
  rewrite avgDeviation_untimed.
  destruct (box_untimed (p :: l)) as (_ & _ & _ & _ & _ & _ & _ & ->).
  reflexivity.
Qed.

Lemma detectShape_untimed (l : list Point) :
  detectShape (map untimed l) = detectShape l.
Proof.
  unfold detectShape.
  rewrite isLine_untimed, isCircle_untimed, isRectangle_untimed.
  destruct (box_untimed l) as (_ & _ & _ & _ & _ & _ & -> & ->).
  reflexivity.
Qed.

Lemma getShapeParams_untimed (tag : string) (l : list Point) :
  getShapeParams tag (map untimed l) = getShapeParams tag l.
Proof.
  unfold getShapeParams.
  destruct (tag =? "line")%string.
  - destruct l as [|p l]; [reflexivity|]. cbn [map].
    rewrite !elem_first. cbn [bind]. unfold len.
    rewrite (@elem_last _ (untimed p :: map untimed l) (untimed p))
      by discriminate.
    rewrite (@elem_last _ (p :: l) p) by discriminate.
    cbn [bind]. change (untimed p :: map untimed l) with (map untimed (p :: l)).
    rewrite last_untimed. reflexivity.
  - destruct (tag =? "rectangle")%string.
    + rewrite map_x_untimed, map_y_untimed. reflexivity.
    + destruct (tag =? "circle")%string; [|reflexivity].
      rewrite !sums_fold, length_map.
      rewrite !fold_untimed by reflexivity. reflexivity.
Qed.

Lemma untimed_of_coords (l l' : list Point) :
  map coords l = map coords l' -> map untimed l = map untimed l'.
Proof.
  intros H.
  assert (E : forall k,
             map untimed k
             = map (fun c : float * float =>
                      {| x := fst c; y := snd c; time := 0 |})
                 (map coords k))
    by (intros k; rewrite map_map; reflexivity).
  rewrite (E l), (E l'), H. reflexivity.
Qed.

Lemma stamp_untimed (now : nat -> Z) (i : nat) (vs : list TVector2D) :
  map untimed (stamp now i vs)
  = map (fun v => {| x := vx v; y := vy v; time := 0 |}) vs.
Proof.
  revert i. induction vs as [|v vs IH]; intros i; [reflexivity|].
  cbn [stamp map]. rewrite IH. reflexivity.
Qed.

(** X13: timestamps play no part in the classification: two buffers with
    the same coordinates get the same answer of the detector and the same
    parameters for every tag, and the answer of the console entry point
    does not depend on what the clock reads. *)
Theorem timestamps_do_not_matter (l l' : list Point) :
  map coords l = map coords l' ->
  detectShape l = detectShape l'
  /\ (forall tag, getShapeParams tag l = getShapeParams tag l')
  /\ (forall now now' vs,
         recognizeShapeFromPoints None now vs
         = recognizeShapeFromPoints None now' vs).
Proof.
  intros H. apply untimed_of_coords in H. split; [|split].
  - rewrite <- (detectShape_untimed l), <- (detectShape_untimed l'), H.
    reflexivity.
  - intros tag.
    rewrite <- (getShapeParams_untimed tag l),
      <- (getShapeParams_untimed tag l'), H.
    reflexivity.
  - intros now now' vs. unfold recognizeShapeFromPoints.
    destruct (Z.of_nat (length vs) <? 10)%Z; [reflexivity|]. cbv zeta.
    assert (E : map untimed (stamp now 0 vs) = map untimed (stamp now' 0 vs))
      by (rewrite !stamp_untimed; reflexivity).
    rewrite <- (isLineStatic_untimed (stamp now 0 vs)),
      <- (isLineStatic_untimed (stamp now' 0 vs)), E.
    change isCircleStatic with isCircle.
    change isRectangleStatic with isRectangle.
    rewrite <- (isCircle_untimed (stamp now 0 vs)),
      <- (isCircle_untimed (stamp now' 0 vs)), E.
    rewrite <- (isRectangle_untimed (stamp now 0 vs)),
      <- (isRectangle_untimed (stamp now' 0 vs)), E.
    destruct (box_untimed (stamp now 0 vs))
      as (_ & _ & _ & _ & _ & _ & <- & _).
    destruct (box_untimed (stamp now' 0 vs))
      as (_ & _ & _ & _ & _ & _ & <- & _).
    rewrite E. reflexivity.
Qed.

Lemma timestamps_witness :
  detectShape (map (fun p => {| x := x p; y := y p; time := 1234 |}) ring)
  = detectShape ring.
Proof.
  assert (H : map coords
                (map (fun p => {| x := x p; y := y p; time := 1234 |}) ring)
              = map coords ring) by (vm_compute; reflexivity).
  exact (proj1 (@timestamps_do_not_matter _ _ H)).
Defined.

(** ** The bounding box *)

Lemma classify_neg_zero (a : float) :
  Js.isNegZero a = true -> Prim2SF a = S754_zero true.
Proof.
  unfold Js.isNegZero. rewrite classify_spec. unfold SF64classify, SFclassify.
  destruct (Prim2SF a) as [[|]|[|]| |[|] m e]; try discriminate;
    try reflexivity;
    destruct (Z.eqb _ _); discriminate.
Qed.

Lemma classify_pos_zero (a : float) :
  Js.isPosZero a = true -> Prim2SF a = S754_zero false.
Proof.
  unfold Js.isPosZero. rewrite classify_spec. unfold SF64classify, SFclassify.
  destruct (Prim2SF a) as [[|]|[|]| |[|] m e]; try discriminate;
    try reflexivity;
    destruct (Z.eqb _ _); discriminate.
Qed.

Lemma zeros_fle (a b : float) :
  (Js.isNegZero a = true \/ Js.isPosZero a = true) ->
  (Js.isNegZero b = true \/ Js.isPosZero b = true) ->
  fle a b.
Proof.
  intros Ha Hb. apply leb_rank. exists (0, 0, 0)%Z, (0, 0, 0)%Z.
  repeat split.
  - destruct Ha as [Ha|Ha];
      [apply classify_neg_zero in Ha|apply classify_pos_zero in Ha];
      rewrite Ha; reflexivity.
  - destruct Hb as [Hb|Hb];
      [apply classify_neg_zero in Hb|apply classify_pos_zero in Hb];
      rewrite Hb; reflexivity.
  - cbn. lia.
Qed.

(** Equal as numbers: below each other. *)
Lemma fle_antisym (a b : float) : fle a b -> fle b a -> (a =? b)%float = true.
Proof.
  unfold fle. rewrite !leb_rank, eqb_spec. unfold SFeqb.
  rewrite SFcompare_rank.
  intros (ra & rb & Ha & Hb & Hab) (rb' & ra' & Hb' & Ha' & Hba).
  rewrite Ha, Hb. rewrite Ha in Ha'. rewrite Hb in Hb'.
  injection Ha' as <-. injection Hb' as <-.
  destruct (lexcmp ra rb) eqn:E; [reflexivity| |].
  - apply lexcmp_lt in E. contradiction.
  - apply lexcmp_le in Hab. contradiction.
Qed.

Lemma below_infinity (a : float) :
  Js.isNaN a = false -> (a <? infinity)%float = false -> a = infinity.
Proof.
  intros Ha H. apply Prim2SF_inj. rewrite ltb_spec in H.
  apply isNaN_spec in Ha.
  change (Prim2SF infinity) with (S754_infinity false) in *.
  destruct (Prim2SF a) as [s|[|]| |s m e]; try congruence;
    try discriminate H.
Qed.

Lemma above_neg_infinity (a : float) :
  Js.isNaN a = false -> (neg_infinity <? a)%float = false ->
  a = neg_infinity.
Proof.
  intros Ha H. apply Prim2SF_inj. rewrite ltb_spec in H.
  apply isNaN_spec in Ha.
  change (Prim2SF neg_infinity) with (S754_infinity true) in *.
  destruct (Prim2SF a) as [s|[|]| |s m e]; try congruence;
    try discriminate H.
Qed.

Lemma min_step_first (a : float) :
  Js.isNaN a = false -> Js.min_step infinity a = a.
Proof.
  intros Ha. unfold Js.min_step. rewrite Ha.
  change (Js.isNaN infinity) with false.
  change (Js.isPosZero infinity) with false.
  rewrite andb_false_r. cbn [orb].
  destruct (a <? infinity)%float eqn:E; [reflexivity|].
  symmetry. apply below_infinity; assumption.
Qed.

Lemma max_step_first (a : float) :
  Js.isNaN a = false -> Js.max_step neg_infinity a = a.
Proof.
  intros Ha. unfold Js.max_step. rewrite Ha.
  change (Js.isNaN neg_infinity) with false.
  change (Js.isNegZero neg_infinity) with false.
  rewrite andb_false_r. cbn [orb].
  destruct (neg_infinity <? a)%float eqn:E; [reflexivity|].
  symmetry. apply above_neg_infinity; assumption.
Qed.

Lemma min_step_spec (acc n : float) :
  Js.isNaN acc = false -> Js.isNaN n = false ->
  (Js.min_step acc n = acc \/ Js.min_step acc n = n)
  /\ fle (Js.min_step acc n) acc /\ fle (Js.min_step acc n) n.
Proof.
  intros Ha Hn. unfold Js.min_step. rewrite Ha, Hn. cbn [orb].
  destruct (Js.isNegZero n && Js.isPosZero acc) eqn:Z.
  - apply andb_prop in Z as [Z1 Z2].
    split; [auto|]. split; apply zeros_fle; auto.
  - destruct (n <? acc)%float eqn:E.
    + split; [auto|]. split; [apply float_ltb_leb, E|].
      apply float_leb_refl, Hn.
    + split; [auto|]. split; [apply float_leb_refl, Ha|].
      apply float_ltb_false_leb; assumption.
Qed.

Lemma max_step_spec (acc n : float) :
  Js.isNaN acc = false -> Js.isNaN n = false ->
  (Js.max_step acc n = acc \/ Js.max_step acc n = n)
  /\ fle acc (Js.max_step acc n) /\ fle n (Js.max_step acc n).
Proof.
  intros Ha Hn. unfold Js.max_step. rewrite Ha, Hn. cbn [orb].
  destruct (Js.isPosZero n && Js.isNegZero acc) eqn:Z.
  - apply andb_prop in Z as [Z1 Z2].
    split; [auto|]. split; apply zeros_fle; auto.
  - destruct (acc <? n)%float eqn:E.
    + split; [auto|]. split; [apply float_ltb_leb, E|].
      apply float_leb_refl, Hn.
    + split; [auto|]. split; [apply float_leb_refl, Ha|].
      apply float_ltb_false_leb; assumption.
Qed.

Lemma fold_min_spec (l : list float) (acc : float) :
  Js.isNaN acc = false -> numbers l ->
  (fold_left Js.min_step l acc = acc \/ In (fold_left Js.min_step l acc) l)
  /\ fle (fold_left Js.min_step l acc) acc
  /\ (forall v, In v l -> fle (fold_left Js.min_step l acc) v).
Proof.
  revert acc. induction l as [|n l IH]; intros acc Ha Hl.
  - cbn. split; [auto|]. split; [apply float_leb_refl, Ha|]. intros v [].
  - apply Forall_cons_iff in Hl as [Hn Hl]. cbn [fold_left].
    destruct (@min_step_spec acc n Ha Hn) as (Hsel & Hacc & Hle).
    assert (Hm : Js.isNaN (Js.min_step acc n) = false)
      by (destruct Hsel as [->| ->]; assumption).
    destruct (IH _ Hm Hl) as (Hsel' & Hacc' & Hall).
    split; [|split].
    + destruct Hsel' as [E|Hin]; [|right; right; exact Hin].
      rewrite E. destruct Hsel as [->| ->]; [auto|right; left; reflexivity].
    + eapply float_leb_trans; eassumption.
    + intros v [<-|Hv]; [|apply Hall, Hv].
      eapply float_leb_trans; eassumption.
Qed.

Lemma fold_max_spec (l : list float) (acc : float) :
  Js.isNaN acc = false -> numbers l ->
  (fold_left Js.max_step l acc = acc \/ In (fold_left Js.max_step l acc) l)
  /\ fle acc (fold_left Js.max_step l acc)
  /\ (forall v, In v l -> fle v (fold_left Js.max_step l acc)).
Proof.
  revert acc. induction l as [|n l IH]; intros acc Ha Hl.
  - cbn. split; [auto|]. split; [apply float_leb_refl, Ha|]. intros v [].
  - apply Forall_cons_iff in Hl as [Hn Hl]. cbn [fold_left].
    destruct (@max_step_spec acc n Ha Hn) as (Hsel & Hacc & Hle).
    assert (Hm : Js.isNaN (Js.max_step acc n) = false)
      by (destruct Hsel as [->| ->]; assumption).
    destruct (IH _ Hm Hl) as (Hsel' & Hacc' & Hall).
    split; [|split].
    + destruct Hsel' as [E|Hin]; [|right; right; exact Hin].
      rewrite E. destruct Hsel as [->| ->]; [auto|right; left; reflexivity].
    + eapply float_leb_trans; eassumption.
    + intros v [<-|Hv]; [|apply Hall, Hv].
      eapply float_leb_trans; eassumption.
Qed.

Lemma Math_min_minimum (l : list float) :
  l <> [] -> numbers l -> isMinimumOf (Js.Math_min l) l.
Proof.
  intros Hne Hl. destruct l as [|a l]; [congruence|].
  apply Forall_cons_iff in Hl as [Ha Hl].
  unfold Js.Math_min. cbn [fold_left]. rewrite min_step_first by exact Ha.
  destruct (@fold_min_spec l a Ha Hl) as (Hsel & Hacc & Hall).
  split.
  - destruct Hsel as [->|Hin]; [left; reflexivity|right; exact Hin].
  - intros v [<-|Hv]; [exact Hacc|apply Hall, Hv].
Qed.

Lemma Math_max_maximum (l : list float) :
  l <> [] -> numbers l -> isMaximumOf (Js.Math_max l) l.
Proof.
  intros Hne Hl. destruct l as [|a l]; [congruence|].
  apply Forall_cons_iff in Hl as [Ha Hl].
  unfold Js.Math_max. cbn [fold_left]. rewrite max_step_first by exact Ha.
  destruct (@fold_max_spec l a Ha Hl) as (Hsel & Hacc & Hall).
  split.
  - destruct Hsel as [->|Hin]; [left; reflexivity|right; exact Hin].
  - intros v [<-|Hv]; [exact Hacc|apply Hall, Hv].
Qed.

Lemma minima_agree (a b : float) (l : list float) :
  isMinimumOf a l -> isMinimumOf b l -> (a =? b)%float = true.
Proof.
  intros [Ha Hal] [Hb Hbl]. apply fle_antisym; auto.
Qed.

Lemma maxima_agree (a b : float) (l : list float) :
  isMaximumOf a l -> isMaximumOf b l -> (a =? b)%float = true.
Proof.
  intros [Ha Hal] [Hb Hbl]. apply fle_antisym; auto.
Qed.

(** X14: when no coordinate is NaN, the bounding box the detectors compute
    with [Math.min] and [Math.max] is made of a least and a greatest x and
    y among the points, and the parameters extracted for a rectangle are
    that very box: the four numbers are equal to its four sides. *)
Theorem rectangle_params_are_the_bounding_box
  (first : Point) (rest : list Point) :
  forallb hasNumbers (first :: rest) = true ->
  isMinimumOf (minX (first :: rest)) (map x (first :: rest))
  /\ isMaximumOf (maxX (first :: rest)) (map x (first :: rest))
  /\ isMinimumOf (minY (first :: rest)) (map y (first :: rest))
  /\ isMaximumOf (maxY (first :: rest)) (map y (first :: rest))
  /\ exists left top right bottom,
       getShapeParams "rectangle" (first :: rest)
       = Ok {| x1 := Some left; y1 := Some top;
               x2 := Some right; y2 := Some bottom |}
       /\ (left =? minX (first :: rest))%float = true
       /\ (top =? minY (first :: rest))%float = true
       /\ (right =? maxX (first :: rest))%float = true
       /\ (bottom =? maxY (first :: rest))%float = true.
Proof.
  intros Hnum. apply numbers_of_points in Hnum as [Hx Hy].
  assert (Hminx := @Math_min_minimum (map x (first :: rest))
                     ltac:(discriminate) Hx).
  assert (Hmaxx := @Math_max_maximum (map x (first :: rest))
                     ltac:(discriminate) Hx).
  assert (Hminy := @Math_min_minimum (map y (first :: rest))
                     ltac:(discriminate) Hy).
  assert (Hmaxy := @Math_max_maximum (map y (first :: rest))
                     ltac:(discriminate) Hy).
  repeat (split; [assumption|]).
  destruct (@sorted_extremes (map x (first :: rest)))
    as (left & right & Hl & Hr & Hmin & Hmax); [discriminate|exact Hx|].
  destruct (@sorted_extremes (map y (first :: rest)))
    as (top & bottom & Ht & Hb & Hmin' & Hmax'); [discriminate|exact Hy|].
  exists left, top, right, bottom.
  split.
  - unfold getShapeParams.
    change ("rectangle" =? "line")%string with false.
    change ("rectangle" =? "rectangle")%string with true.
    cbv iota zeta.
    change (fun a b : float => (a - b)%float) with ascending.
    rewrite Hl, Hr, Ht, Hb. reflexivity.
  - split; [|split; [|split]].
    + exact (@minima_agree _ _ _ Hmin Hminx).
    + exact (@minima_agree _ _ _ Hmin' Hminy).
    + exact (@maxima_agree _ _ _ Hmax Hmaxx).
    + exact (@maxima_agree _ _ _ Hmax' Hmaxy).
Qed.

Lemma rectangle_params_witness :
  isMinimumOf (minX box) (map x box)
  /\ isMaximumOf (maxY box) (map y box).
Proof.
  destruct (@rectangle_params_are_the_bounding_box (pt 0 0) (tl box))
    as (H1 & _ & _ & H4 & _); [vm_compute; reflexivity|].
  split; [exact H1|exact H4].
Defined.

(** ** The corners of the rectangle test *)

Lemma markCorners_fold (points l : list Point) (c : Corners) :
  let near cornerX cornerY :=
    existsb
      (fun p =>
         (PrimFloat.abs (x p - cornerX) <? cornerThreshold points)%float
         && (PrimFloat.abs (y p - cornerY) <? cornerThreshold points)%float)
      l in
  fold_left (markCorners points) l c
  = {| topLeft := topLeft c || near (minX points) (minY points);
       topRight := topRight c || near (maxX points) (minY points);
       bottomLeft := bottomLeft c || near (minX points) (maxY points);
       bottomRight := bottomRight c || near (maxX points) (maxY points) |}.
Proof.
  cbv zeta. revert c. induction l as [|p l IH]; intros c.
  - cbn. rewrite !orb_false_r. destruct c; reflexivity.
  - cbn [fold_left existsb]. rewrite IH. unfold markCorners. cbv zeta.
    cbn [topLeft topRight bottomLeft bottomRight].
    f_equal;
      match goal with
      | |- (if ?hit then true else ?old) || ?later = _ =>
          destruct hit, old; reflexivity
      end.
Qed.

(** X15: the loop of the rectangle test marks a corner of the bounding box
    exactly when some point lies within the corner threshold of both its
    coordinates; the count of marked corners is the number of such corners,
    at most four, and the test asks for three of them. *)
Theorem corners_are_counted (points : list Point) :
  cornerCount points
  = length
      (filter (fun v : bool => v)
         [hitsCorner points (minX points) (minY points);
          hitsCorner points (maxX points) (minY points);
          hitsCorner points (minX points) (maxY points);
          hitsCorner points (maxX points) (maxY points)])
  /\ cornerCount points <= 4
  /\ (isRectangle points = true -> 3 <= cornerCount points).
Proof.
  assert (E : cornerCount points
              = length
                  (filter (fun v : bool => v)
                     [hitsCorner points (minX points) (minY points);
                      hitsCorner points (maxX points) (minY points);
                      hitsCorner points (minX points) (maxY points);
                      hitsCorner points (maxX points) (maxY points)])).
  { unfold cornerCount. cbv zeta. rewrite markCorners_fold. reflexivity. }
  split; [exact E|]. split.
  - rewrite E.
    destruct (hitsCorner points (minX points) (minY points)),
      (hitsCorner points (maxX points) (minY points)),
      (hitsCorner points (minX points) (maxY points)),
      (hitsCorner points (maxX points) (maxY points)); cbn; lia.
  - unfold isRectangle. intros H. split_match; try discriminate.
    apply Nat.leb_le. exact H.
Qed.

(** ** External recognizers *)

Lemma restore_adapter (s : ShapeRecognition) :
  setExternalRecognizer (setExternalRecognizer s None) (externalRecognizer s)
  = s.
Proof. destruct s; reflexivity. Qed.

Lemma fallback_equation (s : ShapeRecognition) :
  tryExternal s = None ->
  recognizeShape s
  = withAdapterOf s (recognizeShape (setExternalRecognizer s None)).
Proof.
  intros H. unfold recognizeShape. rewrite H.
  cbn [points setExternalRecognizer].
  destruct (len (points s) <? 10)%Z.
  - cbn [withAdapterOf]. rewrite restore_adapter. reflexivity.
  - change (tryExternal (setExternalRecognizer s None)) with
      (@None ShapeRecognition).
    destruct (detectShape (points s)) as [[shape|]|e]; cbn [bind withAdapterOf];
      [destruct (getShapeParams (typeName shape) (points s)) as [params|e];
       cbn [bind withAdapterOf]|..];
      try reflexivity; f_equal; destruct s; reflexivity.
Qed.




Lemma hits_inv (A : Type) (helper : option (Helper A))
  (pts : list TVector2D) :
  hits helper pts = true ->
  exists f fit, helper = Some f /\ f pts = Ok (Some fit).
Proof.
  unfold hits. destruct helper as [f|]; [|discriminate].
  destruct (f pts) as [[fit|]|e] eqn:E; try discriminate.
  intros _. exists f, fit. split; [reflexivity|exact E].
Qed.

Lemma recognizeByHelpers_inv
  (getEllipse : option (Helper EllipseFit)) (getRect : option (Helper RectFit))
  (getLine : option (Helper LineFit)) (points : list Point)
  (shape : ShapeType) :
  recognizeByHelpers getEllipse getRect getLine points = Ok (Some shape) ->
  match shape with
  | circle => hits getEllipse (normalizePoints points) = true
  | rectangle =>
      hits getEllipse (normalizePoints points) = false
      /\ hits getRect (normalizePoints points) = true
  | line =>
      hits getEllipse (normalizePoints points) = false
      /\ hits getRect (normalizePoints points) = false
      /\ hits getLine (normalizePoints points) = true
  end.
Proof.
  unfold recognizeByHelpers. cbv zeta.
  destruct (hits getEllipse _); [intros [= <-]; reflexivity|].
  destruct (hits getRect _); [intros [= <-]; auto|].
  destruct (hits getLine _); [intros [= <-]; auto|discriminate].
Qed.

Lemma helper_params_defined
  (getEllipse : option (Helper EllipseFit)) (getRect : option (Helper RectFit))
  (getLine : option (Helper LineFit)) (points : list Point)
  (shape : ShapeType) (gp : ShapeType -> list Point -> Result Params) :
  points <> [] ->
  recognizeByHelpers getEllipse getRect getLine points = Ok (Some shape) ->
  getParams (helperAdapter getEllipse getRect getLine) = Some gp
  \/ getParams (heuristicAdapter getEllipse getRect getLine) = Some gp ->
  exists params, gp shape points = Ok params.
Proof.
  intros Hne Hrec Hgp.
  destruct (@getShapeParams_defined shape points Hne)
    as (a & b & c & d & Hbuiltin).
  apply recognizeByHelpers_inv in Hrec.
  destruct Hgp as [[= <-]|[= <-]]; cbv zeta; destruct shape.
  - apply hits_inv in Hrec as (f & fit & -> & Hf).
    unfold ellipseParams. rewrite Hf. cbn [bind].
    destruct (cx fit), (cy fit), (rx fit), (ry fit); cbn [bind]; eauto.
  - destruct Hrec as (_ & Hrec). apply hits_inv in Hrec as (f & fit & -> & Hf).
    unfold rectParams. rewrite Hf. cbn [bind].
    destruct (rectX fit), (rectY fit), (rectWidth fit), (rectHeight fit);
      cbn [bind]; eauto.
  - destruct Hrec as (_ & _ & Hrec).
    apply hits_inv in Hrec as (f & fit & -> & Hf).
    unfold lineParams. rewrite Hf. cbn [bind].
    destruct (lineX1 fit); cbn [bind]; eauto.
  - destruct (ellipseParamsByHeuristic getEllipse (normalizePoints points))
      as [[params|]|e]; eauto.
  - destruct (rectParams getRect (normalizePoints points))
      as [[params|]|e]; eauto.
  - destruct (lineParams getLine (normalizePoints points))
      as [[params|]|e]; eauto.
Qed.

(** X17: with the second or the third adapter of [loadExternalRecognizer]
    installed, an attempt on at least ten points stores and notifies the
    shape of the first helper that answers, circle before rectangle before
    line, whatever the built-in detector would say: a helper that answered
    in [recognize] does not make [getParams] fail.  When no helper answers,
    the attempt is the built-in one. *)
Theorem helpers_decide_before_the_detector
  (s : ShapeRecognition) (getEllipse : option (Helper EllipseFit))
  (getRect : option (Helper RectFit)) (getLine : option (Helper LineFit)) :
  externalRecognizer s = Some (helperAdapter getEllipse getRect getLine)
  \/ externalRecognizer s
     = Some (heuristicAdapter getEllipse getRect getLine) ->
  (10 <= len (points s))%Z ->
  (forall shape,
      recognizeByHelpers getEllipse getRect getLine (points s)
      = Ok (Some shape) ->
      exists params, recognizeShape s = Ok (store s shape params))
  /\ (recognizeByHelpers getEllipse getRect getLine (points s) = Ok None ->
      recognizeShape s
      = withAdapterOf s (recognizeShape (setExternalRecognizer s None))).
Proof.
  intros Hext Hlen. split.
  - intros shape Hrec.
    assert (Hne : points s <> []).
    { unfold len in Hlen. destruct (points s); [cbn in Hlen; lia|discriminate]. }
    unfold recognizeShape, tryExternal.
    apply Z.ltb_ge in Hlen. rewrite Hlen.
    destruct Hext as [-> | ->]; cbn [recognize helperAdapter heuristicAdapter];
      rewrite Hrec; cbn [getParams helperAdapter heuristicAdapter].
    + destruct (@helper_params_defined getEllipse getRect getLine (points s)
                  shape _ Hne Hrec (or_introl eq_refl)) as [params Hp].
      cbv beta zeta in Hp. cbv beta zeta. rewrite Hp. eauto.
    + destruct (@helper_params_defined getEllipse getRect getLine (points s)
                  shape _ Hne Hrec (or_intror eq_refl)) as [params Hp].
      cbv beta zeta in Hp. cbv beta zeta. rewrite Hp. eauto.
  - intros Hrec. apply fallback_equation.
    unfold tryExternal.
    destruct Hext as [-> | ->]; cbn [recognize helperAdapter heuristicAdapter];
      rewrite Hrec; reflexivity.
Qed.

Lemma helpers_decide_witness :
  exists params,
    recognizeShape
      (setExternalRecognizer heldThinStroke
         (Some (helperAdapter (Some alwaysEllipse) None None)))
    = Ok (store
            (setExternalRecognizer heldThinStroke
               (Some (helperAdapter (Some alwaysEllipse) None None)))
            circle params).
Proof.
  destruct (@helpers_decide_before_the_detector
              (setExternalRecognizer heldThinStroke
                 (Some (helperAdapter (Some alwaysEllipse) None None)))
              (Some alwaysEllipse) None None) as [H _].
  - left. reflexivity.
  - vm_compute. discriminate.
  - apply H. reflexivity.
Defined.



(** ** Coordinates that are not numbers *)

Lemma nan_ltb_r (a b : float) : Js.isNaN b = true -> (a <? b)%float = false.
Proof.
  rewrite isNaN_true, ltb_spec. intros ->.
  destruct (Prim2SF a) as [[|]|[|]| |[|] m e]; reflexivity.
Qed.

Lemma nan_eqb_l (a b : float) : Js.isNaN a = true -> (a =? b)%float = false.
Proof. rewrite isNaN_true, eqb_spec. intros ->. reflexivity. Qed.

Lemma fold_min_nan (l : list float) (acc : float) :
  Js.isNaN acc = true -> Js.isNaN (fold_left Js.min_step l acc) = true.
Proof.
  revert acc. induction l as [|n l IH]; intros acc H; [exact H|].
  cbn [fold_left]. apply IH. unfold Js.min_step. rewrite H. reflexivity.
Qed.

Lemma fold_max_nan (l : list float) (acc : float) :
  Js.isNaN acc = true -> Js.isNaN (fold_left Js.max_step l acc) = true.
Proof.
  revert acc. induction l as [|n l IH]; intros acc H; [exact H|].
  cbn [fold_left]. apply IH. unfold Js.max_step. rewrite H. reflexivity.
Qed.

Lemma Math_min_nan (l : list float) (v : float) :
  In v l -> Js.isNaN v = true -> Js.isNaN (Js.Math_min l) = true.
Proof.
  unfold Js.Math_min. generalize infinity.
  induction l as [|n l IH]; intros acc Hin Hv; [destruct Hin|].
  destruct Hin as [<-|Hin]; cbn [fold_left].
  - apply fold_min_nan. unfold Js.min_step. rewrite Hv, orb_true_r.
    reflexivity.
  - apply IH; assumption.
Qed.

Lemma Math_max_nan (l : list float) (v : float) :
  In v l -> Js.isNaN v = true -> Js.isNaN (Js.Math_max l) = true.
Proof.
  unfold Js.Math_max. generalize neg_infinity.
  induction l as [|n l IH]; intros acc Hin Hv; [destruct Hin|].
  destruct Hin as [<-|Hin]; cbn [fold_left].
  - apply fold_max_nan. unfold Js.max_step. rewrite Hv, orb_true_r.
    reflexivity.
  - apply IH; assumption.
Qed.

(** A NaN coordinate makes a side of the bounding box NaN. *)
Lemma nan_side (points : list Point) :
  forallb hasNumbers points = false ->
  Js.isNaN (width points) = true \/ Js.isNaN (height points) = true.
Proof.
  intros H.
  assert (E : exists p, In p points /\ hasNumbers p = false).
  { induction points as [|q l IH]; [discriminate|].
    cbn [forallb] in H. apply andb_false_iff in H as [H|H].
    - exists q. split; [left; reflexivity|exact H].
    - destruct (IH H) as (p & Hp & Hn). exists p. split; [right|]; assumption. }
  destruct E as (p & Hp & Hn). unfold hasNumbers in Hn.
  apply andb_false_iff in Hn as [Hn|Hn]; apply negb_false_iff in Hn.
  - left. unfold width. apply nan_sub_l. unfold maxX.
    apply Math_max_nan with (x p); [apply in_map, Hp|exact Hn].
  - right. unfold height. apply nan_sub_l. unfold maxY.
    apply Math_max_nan with (y p); [apply in_map, Hp|exact Hn].
Qed.

Lemma nan_side_not_square (points : list Point) :
  Js.isNaN (width points) = true \/ Js.isNaN (height points) = true ->
  nearSquare (aspect points) = false.
Proof.
  intros H. unfold nearSquare, aspect.
  destruct (height points =? 0)%float eqn:E; [reflexivity|].
  rewrite nan_ltb_r; [reflexivity|].
  destruct H as [H|H]; [apply nan_div_l|apply nan_div_r]; exact H.
Qed.

Lemma nan_threshold_hits_nothing (th : float) (l : list Point) (a b : float) :
  Js.isNaN th = true ->
  existsb
    (fun p =>
       (PrimFloat.abs (x p - a) <? th)%float
       && (PrimFloat.abs (y p - b) <? th)%float)
    l = false.
Proof.
  intros Hnan. induction l as [|q l IH]; [reflexivity|].
  cbn [existsb]. rewrite (@nan_ltb_r _ th Hnan). cbn [andb orb]. exact IH.
Qed.

Lemma nan_side_no_corner (points : list Point) :
  Js.isNaN (width points) = true \/ Js.isNaN (height points) = true ->
  cornerCount points = 0.
Proof.
  intros H.
  assert (Hth : Js.isNaN (cornerThreshold points) = true).
  { unfold cornerThreshold.
    apply Math_max_nan
      with (Js.Math_min [width points; height points] * 0.25)%float;
      [right; left; reflexivity|].
    apply nan_mul_l.
    destruct H as [H|H].
    - apply Math_min_nan with (width points); [left; reflexivity|exact H].
    - apply Math_min_nan with (height points);
        [right; left; reflexivity|exact H]. }
  unfold cornerCount. cbv zeta. rewrite markCorners_fold.
  cbv zeta. rewrite !(@nan_threshold_hits_nothing _ _ _ _ Hth). reflexivity.
Qed.

(** X19: a stroke with a NaN coordinate is never a circle nor a rectangle:
    whenever the detector answers one of the two, every coordinate in the
    buffer is a number, so the built-in path never extracts the bounds of a
    rectangle from NaN. *)
Theorem round_shapes_need_numbers (points : list Point) (shape : ShapeType) :
  detectShape points = Ok (Some shape) ->
  shape = line \/ forallb hasNumbers points = true.
Proof.
  intros H. destruct (forallb hasNumbers points) eqn:Hn; [auto|]. left.
  apply nan_side in Hn.
  pose proof (nan_side_not_square _ Hn) as Hsq.
  pose proof (nan_side_no_corner _ Hn) as Hc.
  assert (Hr : isRectangle points = false).
  { unfold isRectangle. rewrite Hc. split_match; reflexivity. }
  unfold detectShape in H. cbv zeta in H. rewrite Hsq, Hr in H.
  cbn [andb] in H. unfold bind in H.
  split_match; congruence.
Qed.

Lemma round_shapes_witness :
  forallb hasNumbers box = true /\ forallb hasNumbers ring = true.
Proof.
  destruct (@round_shapes_need_numbers box rectangle) as [H|H];
    [vm_compute; reflexivity|discriminate H|].
  destruct (@round_shapes_need_numbers ring circle) as [H'|H'];
    [vm_compute; reflexivity|discriminate H'|].
  split; assumption.
Defined.

(** ** The console entry point against the instance detector *)

Lemma static_line_implies_instance_line (points : list Point) :
  isLineStatic points = Ok true -> isLine points = Ok true.
Proof.
  destruct points as [|first rest]; [discriminate|].
  rewrite static_line_test_unfolded, instance_line_test_accepts.
  split_match; congruence.
Qed.

(** X20: without an external module the console entry point is the more
    cautious of the two classifiers: every shape it answers is also the
    answer of the instance detector on the same points, and where it
    answers null the instance detector answers null or line. *)
Theorem console_answers_are_instance_answers
  (now : nat -> Z) (vs : list TVector2D) :
  (forall shape,
      recognizeShapeFromPoints None now vs = Ok (Some shape) ->
      detectShape (stamp now 0 vs) = Ok (Some shape))
  /\ (recognizeShapeFromPoints None now vs = Ok None ->
      detectShape (stamp now 0 vs) = Ok None
      \/ detectShape (stamp now 0 vs) = Ok (Some line)).
Proof.
  unfold recognizeShapeFromPoints, detectShape, len.
  rewrite stamp_length.
  destruct (Z.of_nat (length vs) <? 10)%Z eqn:Hlen;
    [split; [discriminate|auto]|].
  cbv zeta.
  change isCircleStatic with isCircle.
  change isRectangleStatic with isRectangle.
  assert (Hne : stamp now 0 vs <> []).
  { intros E. apply (f_equal (@length Point)) in E.
    rewrite stamp_length in E. apply Z.ltb_ge in Hlen. cbn in E. lia. }
  destruct (@isLine_total (stamp now 0 vs) Hne) as [b Hb].
  destruct (isLineStatic_total (stamp now 0 vs)) as [b' Hb'].
  assert (Himp : b' = true -> b = true).
  { intros ->. apply static_line_implies_instance_line in Hb'. congruence. }
  rewrite Hb, Hb'. cbn [bind].
  destruct (elongated (aspect (stamp now 0 vs))),
    (nearSquare (aspect (stamp now 0 vs)) && isCircle (stamp now 0 vs)),
    (isRectangle (stamp now 0 vs)), b', b;
    try (specialize (Himp eq_refl); discriminate Himp);
    (split;
     [intros shape H; first [exact H|discriminate H]
     |intros H;
      first [left; reflexivity|right; reflexivity|discriminate H]]).
Qed.

(** ** Stored bounds without an external recognizer *)

Lemma builtinInvariant_step (s : ShapeRecognition) (i : Input) :
  noAdapter i = true -> builtinInvariant s -> builtinInvariant (step s i).
Proof.
  intros Hi [He Hb]. destruct i as [event now| |[a|]]; try discriminate;
    cbn [step].
  - destruct (chainIn_keeps_results s event now) as (_ & Hs & _).
    split; [|intros r; rewrite Hs; apply Hb].
    destruct event; cbn [chainIn fst copyObj]; try exact He.
    cbn [isHolding setPoints]. destruct (isHolding s); exact He.
  - destruct (holdTimeout s); [|split; assumption].
    unfold holdCallback.
    set (s0 := setIsHolding (setHoldTimeout s None) true).
    assert (He0 : externalRecognizer s0 = None) by exact He.
    destruct (recognizeShape s0) as [s'|e] eqn:E; [|split; assumption].
    unfold recognizeShape in E.
    assert (Ht : tryExternal s0 = None)
      by (unfold tryExternal; rewrite He0; reflexivity).
    rewrite Ht in E.
    destruct (len (points s0) <? 10)%Z eqn:Hlen.
    { injection E as <-. split; assumption. }
    destruct (detectShape (points s0)) as [[shape|]|e] eqn:Hd;
      cbn [bind] in E; try discriminate.
    + destruct (@getShapeParams_defined shape (points s0))
        as (a & b & c & d & Hp).
      { eapply long_nonempty; [|eassumption]. lia. }
      rewrite Hp in E. cbn [bind] in E. injection E as <-.
      split; [exact He|]. cbn. intros r [= <-]. cbn.
      exists a, b, c, d. reflexivity.
    + injection E as <-. split; [exact He|]. cbn. discriminate.
  - split; [reflexivity|exact Hb].
Qed.

(** X21: as long as no external recognizer is found, every shape an
    instance stores has four defined numbers as its bounds; with an
    adapter that is not so, for the line helper of the second adapter is
    only checked for [x1]. *)
Theorem builtin_shapes_have_bounds (trace : list Input) :
  forallb noAdapter trace = true ->
  forall r,
    getRecognizedShape (run construct trace) = Some r ->
    definedBounds (bounds r).
Proof.
  intros Hall.
  assert (H : forall s, builtinInvariant s -> builtinInvariant (run s trace)).
  { induction trace as [|i trace IH]; intros s Hs; [exact Hs|].
    cbn [forallb] in Hall. apply andb_prop in Hall as [Hi Hall].
    cbn [run fold_left]. apply (IH Hall).
    apply builtinInvariant_step; assumption. }
  destruct (H construct) as [_ Hb]; [|exact Hb].
  split; [reflexivity|]. intros r. discriminate.
Qed.

Lemma builtin_shapes_witness :
  definedBounds
    {| x1 := Some 0%float; y1 := Some 0%float;
       x2 := Some 0%float; y2 := Some 0%float |}
  /\ getRecognizedShape
       (holdCallback
          (setExternalRecognizer heldThinStroke
             (Some (helperAdapter None None (Some halfLine)))))
     = Some {| type := line;
               bounds := {| x1 := Some 1%float; y1 := None;
                            x2 := None; y2 := None |} |}.
Proof.
  split; [|vm_compute; reflexivity].
  apply (@builtin_shapes_have_bounds pressAndStay eq_refl
           {| type := line;
              bounds := {| x1 := Some 0%float; y1 := Some 0%float;
                           x2 := Some 0%float; y2 := Some 0%float |} |}).
  vm_compute. reflexivity.
Defined.
